(** * Products-Backend: the Express application of [src/mongo_server.js]

    A shallow embedding of the six routes and of the authentication
    middleware.  A handler is a function from the request, the store and
    what the request reads from its surroundings (secret, clock, salt, new
    id) to the response and the store it leaves; each one follows its
    source line by line, the [catch] branches included.

    The libraries the handlers call are modelled by what they document:
    - [express]: [res.status(c).json(v)], [res.json(v)], [res.sendStatus(c)]
      and the order middleware, handler of a route;
    - [bcrypt] and [jsonwebtoken]: an interface ([Libraries]); of
      [jwt.sign] the part that stamps [iat] and [exp] is written out;
    - [mongoose]: the two collections as lists of documents, with the
      schema's [required] validators, the unique indexes, the casts of a
      value to a String path and of an id to an ObjectId, and a
      connection that may be down.
    A [Request] is a request as the routes receive it, its body parsed by
    [express.json()]; [server] puts the parser before [app], for the
    requests whose body it refuses.  What is written to the console is not
    modelled. *)

From Stdlib Require Import ZArith Ascii String PrimFloat SpecFloat FloatOps.
From stdpp Require Import base strings list gmap pretty.

(** ** JavaScript values

    A field of [req.body] is [undefined] ([None]) or a value [JSON.parse]
    produced; a header is [undefined] or a string. *)

#[warnings="-register-all"]
Inductive Value :=
| VNull
| VBool (b : bool)
| VNumber (n : float)
| VString (s : string)
| VArray (items : list Value)
| VObject (fields : list (string * Value)).

Module Js.

(** [!!v] for a field of the body: [undefined], [null], [false], [0],
    [NaN] and [''] are the falsy ones. *)
Definition truthy_value (v : option Value) : bool :=
  match v with
  | None | Some VNull => false
  | Some (VBool b) => b
  | Some (VNumber n) => negb (PrimFloat.eqb n 0 || negb (PrimFloat.eqb n n))
  | Some (VString s) => negb (String.eqb s "")
  | Some (VArray _) | Some (VObject _) => true
  end.

(** [!!v] for a string-or-undefined value: [undefined] and [''] are the
    falsy ones. *)
Definition truthy (v : option string) : bool :=
  match v with
  | None => false
  | Some s => negb (String.eqb s "")
  end.

(** [a && b]: [a] itself when it is falsy, otherwise [b]. *)
Definition and (a : option string) (b : string → option string)
  : option string :=
  match a with
  | Some s => if truthy (Some s) then b s else a
  | None => None
  end.

(** [s.split(sep)] for a one-character separator: the pieces between the
    occurrences of [sep], empty pieces included; never the empty array. *)
Fixpoint split (sep : ascii) (s : string) : list string :=
  match s with
  | EmptyString => [EmptyString]
  | String c s' =>
      if Ascii.eqb c sep then EmptyString :: split sep s'
      else match split sep s' with
           | [] => [String c EmptyString]
           | piece :: pieces => String c piece :: pieces
           end
  end.

(** No occurrence of the character [c] in [s]. *)
Fixpoint free_of (c : ascii) (s : string) : bool :=
  match s with
  | EmptyString => true
  | String c' s' => negb (Ascii.eqb c' c) && free_of c s'
  end.

(** [pieces.join(sep)]. *)
Fixpoint join (sep : ascii) (pieces : list string) : string :=
  match pieces with
  | [] => EmptyString
  | [p] => p
  | p :: ps => p +:+ String sep (join sep ps)
  end.

End Js.

(** ** Data model (the two Mongoose schemas, lines 31-45) *)

(** An [ObjectId] is kept as its 24-digit hexadecimal rendering, which is
    also how it appears in JSON and in a token payload. *)
Definition ObjectId := string.

Record SellerDoc := mkSeller {
  s_id : ObjectId;
  s_username : string;
  s_password : string;
}.

Record ProductDoc := mkProduct {
  p_id : ObjectId;
  p_name : string;
  p_description : string;
}.

(** The store: whether [mongoose.connect] (lines 27-29) succeeded, and the
    two collections in their natural (insertion) order. *)
Record Db := mkDb {
  connected : bool;
  sellers : list SellerDoc;
  products : list ProductDoc;
}.

(** The payload of a token: [{ id, username, iat, exp }]. *)
Record JwtPayload := mkPayload {
  jp_id : ObjectId;
  jp_username : string;
  jp_iat : Z;
  jp_exp : option Z;
}.

(** What a request reads from its surroundings: the environment variable
    [JWT_SECRET], the clock (seconds since the epoch), the salt [bcrypt]
    draws and the [_id] the driver generates for a new document. *)
Record Env := mkEnv {
  JWT_SECRET : option string;
  now : Z;
  salt : string;
  new_id : ObjectId;
}.

(** ** The libraries *)

Class Libraries := {
  (** [bcrypt.hash(data, rounds)] with the salt it drew. *)
  bcrypt_hash : string → Z → string → string;
  (** [bcrypt.compare(data, encrypted)]. *)
  bcrypt_compare : string → string → bool;
  (** The compact HS256 serialisation [jsonwebtoken] produces for a payload
      under a secret. *)
  jws_sign : string → JwtPayload → string;
  (** [jwt.verify(token, secret, callback)] at a given clock value: [None]
      when the callback receives an error, the decoded payload otherwise. *)
  jwt_verify : string → option string → Z → option JwtPayload;
  (** Mongoose's cast of a string to an [ObjectId] ([None]: CastError). *)
  castObjectId : string → option ObjectId;
  (** Mongoose's cast of a value to a String path ([None]: CastError). *)
  castString : Value → option string;
  (** Mongoose's reading of [{ username: v }] as a query condition on the
      stored username ([None]: CastError).  A string asks for equality; a
      number is cast first; an object may carry query operators. *)
  castCondition : Value → option (string → bool);
  (** Express's [req.fresh] for a GET answered 200 with this array: the
      request headers ([If-None-Match], [Cache-Control]) against the ETag
      of the body. *)
  req_fresh : gmap string string → list ProductDoc → bool;
  (** A bcrypt hash is a 60-character string, in particular not [""]. *)
  bcrypt_hash_nonempty : ∀ data rounds slt, bcrypt_hash data rounds slt ≠ "";
  (** A string casts to itself and, as a condition, asks for equality. *)
  castString_string : ∀ s, castString (VString s) = Some s;
  castCondition_string :
    ∀ s, castCondition (VString s) = Some (λ stored, String.eqb stored s);
}.

(** ** Express: requests and responses *)

Inductive Route :=
| POST_sellers_signup
| POST_sellers_login
| GET_products
| POST_products
| PUT_products (id : string)
| DELETE_products (id : string).

#[global] Instance Route_eq_dec : EqDecision Route.
Proof. solve_decision. Defined.

Record Request := mkRequestWith {
  route : Route;
  authorization : option string;          (* req.headers['authorization'] *)
  body : gmap string Value;               (* req.body *)
  user : option JwtPayload;               (* req.user, set by the middleware *)
  headers : gmap string string;           (* the other request headers *)
}.

(** A request with no other header than [Authorization]. *)
Definition mkRequest (r : Route) (auth : option string)
    (b : gmap string Value) (u : option JwtPayload) : Request :=
  mkRequestWith r auth b u ∅.

(** The values handed to [res.json]: an object literal whose fields are
    strings or Mongoose documents, or an array of documents. *)
Inductive JsValue :=
| JString (s : string)
| JDocument (p : ProductDoc).

Inductive Body :=
| Text (s : string)
| Json (fields : list (string * JsValue))
| JsonArray (ps : list ProductDoc).

Record Response := mkResponse {
  status : Z;
  res_body : Body;
}.

(** What [express.json()] (line 11) makes of the body of an incoming
    request: it sets [req.body] (to the parsed object, or to [{}] when the
    request carries no JSON body) and calls [next], or it hands an error
    to Express, whose final handler answers with the error's status (400
    for a body that is not JSON, 413 for one over the size limit, 415 for
    an unsupported charset or encoding) and an error page. *)
Inductive Parsed :=
| Accepted (b : gmap string Value)
| Refused (code : Z) (page : string).

(** A request as it comes in, before the parser. *)
Record Incoming := mkIncoming {
  in_route : Route;
  in_authorization : option string;
  in_headers : gmap string string;
  in_body : Parsed;
}.

Module Res.

(** The [statuses] table Express consults, for the codes of this
    application; any other code is rendered in decimal. *)
Definition status_message (code : Z) : string :=
  if (code =? 200)%Z then "OK"
  else if (code =? 201)%Z then "Created"
  else if (code =? 400)%Z then "Bad Request"
  else if (code =? 401)%Z then "Unauthorized"
  else if (code =? 403)%Z then "Forbidden"
  else if (code =? 404)%Z then "Not Found"
  else if (code =? 500)%Z then "Internal Server Error"
  else pretty code.

(** [res.sendStatus(code)]: Express sets the status and sends the
    registered status message as a text body. *)
Definition sendStatus (code : Z) : Response :=
  mkResponse code (Text (status_message code)).

(** [res.status(code).json(obj)]. *)
Definition status_json (code : Z) (obj : list (string * JsValue)) : Response :=
  mkResponse code (Json obj).

(** [res.json(obj)] on a route whose method is not GET: the status stays
    at its default, 200. *)
Definition json (obj : list (string * JsValue)) : Response :=
  mkResponse 200 (Json obj).

(** [res.json(array)] on a GET route: 200 with the array, unless the
    request is fresh, which Express answers 304 with no body. *)
Definition json_array (fresh : bool) (ps : list ProductDoc) : Response :=
  if fresh then mkResponse 304 (Text "") else mkResponse 200 (JsonArray ps).

(** A body of zero bytes. *)
Definition empty_body (b : Body) : bool :=
  match b with
  | Text s => String.eqb s ""
  | Json _ | JsonArray _ => false
  end.

End Res.

(** ** Promises

    An awaited library call either resolves to a value or rejects; every
    handler awaits inside a [try] whose [catch] answers 500. *)

Inductive Error :=
| MongooseError        (* no connection: the buffered operation times out *)
| CastError            (* a value does not cast to the schema type *)
| ValidationError      (* a [required] path is empty *)
| DuplicateKey         (* E11000 on [_id] or on a unique index *)
| JwtError             (* [jwt.sign] threw *)
| BcryptError.         (* the data is not a string *)

Inductive Promise (A : Type) :=
| Resolved (a : A)
| Rejected (e : Error).
Arguments Resolved {A} a.
Arguments Rejected {A} e.

(** ** jsonwebtoken: [jwt.sign] *)

Module Jwt.

Definition is_digit (c : ascii) : bool :=
  (48 <=? nat_of_ascii c)%nat && (nat_of_ascii c <=? 57)%nat.

Definition digit_value (c : ascii) : Z :=
  Z.of_nat (nat_of_ascii c) - 48.

(** The decimal number a string starts with, and what follows it. *)
Fixpoint leading_number (acc : option Z) (s : string) : option Z * string :=
  match s with
  | String c s' =>
      if is_digit c
      then leading_number (Some (10 * default 0%Z acc + digit_value c)%Z) s'
      else (acc, s)
  | EmptyString => (acc, s)
  end.

Definition unit_ms (unit : string) : option Z :=
  if String.eqb unit "" then Some 1%Z
  else if String.eqb unit "ms" then Some 1%Z
  else if String.eqb unit "s" then Some 1000%Z
  else if String.eqb unit "m" then Some 60000%Z
  else if String.eqb unit "h" then Some 3600000%Z
  else if String.eqb unit "d" then Some 86400000%Z
  else if String.eqb unit "w" then Some 604800000%Z
  else if String.eqb unit "y" then Some 31557600000%Z
  else None.

(** [ms(str)] of the [ms] package, on its whole-number forms with a short
    unit (["1h"], ["30m"], ["7d"], ["500"]): the span in milliseconds. *)
Definition ms (str : string) : option Z :=
  match leading_number None str with
  | (Some n, unit) => (λ k, n * k)%Z <$> unit_ms unit
  | (None, _) => None
  end.

(** [timespan(time, iat)]: [Math.floor(iat + ms(time) / 1000)]. *)
Definition timespan (time : string) (iat : Z) : option Z :=
  (λ milliseconds, iat + milliseconds / 1000)%Z <$> ms time.

Section Sign.
Context {L : Libraries}.

(** [jwt.sign({ id, username }, secretOrPrivateKey, { expiresIn })] at the
    clock value [timestamp]: throws without a secret or on a span it cannot
    read; otherwise stamps [iat], sets [exp] and signs. *)
Definition sign (id : ObjectId) (username : string)
    (secretOrPrivateKey : option string) (expiresIn : string) (timestamp : Z)
  : Promise string :=
  if negb (Js.truthy secretOrPrivateKey) then Rejected JwtError
  else
    match timespan expiresIn timestamp with
    | None => Rejected JwtError
    | Some exp =>
        Resolved (jws_sign (default "" secretOrPrivateKey)
                    (mkPayload id username timestamp (Some exp)))
    end.

End Sign.
End Jwt.

(** ** bcrypt: the check on the data

    [bcrypt.hash] and [bcrypt.compare] reject when the data is not a
    string (data must be a string or Buffer). *)

Module Bcrypt.
Section Bcrypt.
Context {L : Libraries}.

Definition hash (data : option Value) (rounds : Z) (slt : string)
  : Promise string :=
  match data with
  | Some (VString s) => Resolved (bcrypt_hash s rounds slt)
  | _ => Rejected BcryptError
  end.

Definition compare (data : option Value) (encrypted : string) : Promise bool :=
  match data with
  | Some (VString s) => Resolved (bcrypt_compare s encrypted)
  | _ => Rejected BcryptError
  end.

End Bcrypt.
End Bcrypt.

(** ** Mongoose: the two models *)

(** The [required] validator of a String path: the value is not [""]. *)
Definition required (v : string) : bool := negb (String.eqb v "").

(** The cast of a field handed to a String path; a field that is
    [undefined] leaves the path unset. *)
Definition castField {L : Libraries} (v : option Value) : option string :=
  match v with
  | Some v => castString v
  | None => None
  end.

Definition with_sellers (db : Db) (l : list SellerDoc) : Db :=
  mkDb (connected db) l (products db).

Definition with_products (db : Db) (l : list ProductDoc) : Db :=
  mkDb (connected db) (sellers db) l.

Module Seller.

Definition has_id (id : ObjectId) (l : list SellerDoc) : bool :=
  existsb (λ s, String.eqb (s_id s) id) l.

Definition has_username (username : string) (l : list SellerDoc) : bool :=
  existsb (λ s, String.eqb (s_username s) username) l.

(** [new Seller(doc).save()]: validation, then the insert, which the
    unique indexes on [_id] and [username] may refuse. *)
Definition save (db : Db) (doc : SellerDoc) : Promise Db :=
  if negb (required (s_username doc) && required (s_password doc))
  then Rejected ValidationError
  else if negb (connected db) then Rejected MongooseError
  else if has_id (s_id doc) (sellers db)
          || has_username (s_username doc) (sellers db)
  then Rejected DuplicateKey
  else Resolved (with_sellers db (sellers db ++ [doc])).

(** The first seller whose username meets a condition, or [null]. *)
Definition findOneWhere (db : Db) (condition : string → bool)
  : Promise (option SellerDoc) :=
  if negb (connected db) then Rejected MongooseError
  else Resolved (List.find (λ s, condition (s_username s)) (sellers db)).

Section Model.
Context {L : Libraries}.

(** [new Seller({ username, password })]: the document, when the username
    casts to the String path; otherwise the document carries a cast error
    and [save] rejects. *)
Definition construct (id : ObjectId) (username : option Value)
    (password : string) : option SellerDoc :=
  match castField username with
  | Some u => Some (mkSeller id u password)
  | None => None
  end.

(** [Seller.findOne({ username })]: the filter is cast to the schema, then
    the first match, or [null]. *)
Definition findOne (db : Db) (username : option Value)
  : Promise (option SellerDoc) :=
  match username with
  | Some v =>
      match castCondition v with
      | Some condition => findOneWhere db condition
      | None => Rejected CastError
      end
  | None => Rejected CastError
  end.

End Model.
End Seller.

Module Product.

Definition has_id (id : ObjectId) (l : list ProductDoc) : bool :=
  existsb (λ p, String.eqb (p_id p) id) l.

(** [new Product(doc).save()]. *)
Definition save (db : Db) (doc : ProductDoc) : Promise Db :=
  if negb (required (p_name doc) && required (p_description doc))
  then Rejected ValidationError
  else if negb (connected db) then Rejected MongooseError
  else if has_id (p_id doc) (products db) then Rejected DuplicateKey
  else Resolved (with_products db (products db ++ [doc])).

(** [Product.find()]. *)
Definition find (db : Db) : Promise (list ProductDoc) :=
  if negb (connected db) then Rejected MongooseError
  else Resolved (products db).

(** The first document with the given [_id] gets the two fields set;
    returns it as updated, with the collection. *)
Fixpoint update_first (oid : ObjectId) (name description : string)
    (l : list ProductDoc) : option (ProductDoc * list ProductDoc) :=
  match l with
  | [] => None
  | p :: l' =>
      if String.eqb (p_id p) oid
      then let p' := mkProduct (p_id p) name description in Some (p', p' :: l')
      else match update_first oid name description l' with
           | Some (p', l'') => Some (p', p :: l'')
           | None => None
           end
  end.

(** The first document with the given [_id] is taken out; returns it, with
    the collection. *)
Fixpoint remove_first (oid : ObjectId) (l : list ProductDoc)
  : option (ProductDoc * list ProductDoc) :=
  match l with
  | [] => None
  | p :: l' =>
      if String.eqb (p_id p) oid then Some (p, l')
      else match remove_first oid l' with
           | Some (q, l'') => Some (q, p :: l'')
           | None => None
           end
  end.

Section Queries.
Context {L : Libraries}.

(** [new Product({ name, description })]: the document, when both fields
    cast to their String paths; otherwise [save] rejects. *)
Definition construct (id : ObjectId) (name description : option Value)
  : option ProductDoc :=
  match castField name, castField description with
  | Some n, Some d => Some (mkProduct id n d)
  | _, _ => None
  end.

(** [Product.findByIdAndUpdate(id, { name, description }, { new: true })].
    Mongoose casts the filter [{ _id: id }] and the update to the schema
    before it queries: for a string that is no ObjectId the promise rejects
    with a CastError (Cast to ObjectId failed for value ... at path _id),
    and so it does for a field that does not cast to a string.  Otherwise
    it resolves to the updated document, or to [null] when none has that
    [_id]. *)
Definition findByIdAndUpdate (db : Db) (id : string)
    (name description : option Value) : Promise (option ProductDoc * Db) :=
  match castObjectId id, castField name, castField description with
  | Some oid, Some n, Some d =>
      if negb (connected db) then Rejected MongooseError
      else match update_first oid n d (products db) with
           | Some (p', l') => Resolved (Some p', with_products db l')
           | None => Resolved (None, db)
           end
  | _, _, _ => Rejected CastError
  end.

(** [Product.findByIdAndDelete(id)]: the same cast of the filter; resolves
    to the removed document, or to [null] when none has that [_id]. *)
Definition findByIdAndDelete (db : Db) (id : string)
  : Promise (option ProductDoc * Db) :=
  match castObjectId id with
  | None => Rejected CastError
  | Some oid =>
      if negb (connected db) then Rejected MongooseError
      else match remove_first oid (products db) with
           | Some (p, l') => Resolved (Some p, with_products db l')
           | None => Resolved (None, db)
           end
  end.

End Queries.
End Product.

(** ** The application *)

Inductive Middleware :=
| Respond (res : Response)          (* a response was sent, [next] not called *)
| Next (user : JwtPayload).         (* [req.user = user; next()] *)

Definition Handler := Env → Db → Request → Response * Db.

Section Server.
Context {L : Libraries}.

(** *** The authentication middleware (lines 14-24) *)

(** [authHeader && authHeader.split(' ')[1]]. *)
Definition token_of (authHeader : option string) : option string :=
  Js.and authHeader (λ h, Js.split " "%char h !! 1%nat).

Definition authenticateToken (env : Env) (req : Request) : Middleware :=
  let authHeader := authorization req in
  let token := token_of authHeader in
  if negb (Js.truthy token) then Respond (Res.sendStatus 401)
  else
    match jwt_verify (default "" token) (JWT_SECRET env) (now env) with
    | None => Respond (Res.sendStatus 403)
    | Some user => Next user
    end.

(** [app.METHOD(path, authenticateToken, handler)]: the handler runs only
    when the middleware calls [next], on the request carrying [req.user]. *)
Definition protect (handler : Handler) : Handler :=
  λ env db req,
    match authenticateToken env req with
    | Respond res => (res, db)
    | Next u =>
        handler env db
          (mkRequestWith (route req) (authorization req) (body req) (Some u)
             (headers req))
    end.

(** *** POST /api/sellers/signup (lines 48-63) *)
Definition signup : Handler :=
  λ env db req,
    let username := body req !! "username" in
    let password := body req !! "password" in
    if negb (Js.truthy_value username) || negb (Js.truthy_value password) then
      (Res.status_json 400
         [("error", JString "Username and password are required")], db)
    else
      let failed :=
        (Res.status_json 500
           [("error", JString "Failed to register seller")], db) in
      match Bcrypt.hash password 10 (salt env) with
      | Rejected _ => failed
      | Resolved hashedPassword =>
          match Seller.construct (new_id env) username hashedPassword with
          | None => failed
          | Some newSeller =>
              match Seller.save db newSeller with
              | Resolved db' =>
                  (Res.status_json 201
                     [("message", JString "Seller registered successfully")],
                   db')
              | Rejected _ => failed
              end
          end
      end.

(** *** POST /api/sellers/login (lines 66-89) *)
Definition login : Handler :=
  λ env db req,
    let username := body req !! "username" in
    let password := body req !! "password" in
    if negb (Js.truthy_value username) || negb (Js.truthy_value password) then
      (Res.status_json 400
         [("error", JString "Username and password are required")], db)
    else
      let failed :=
        (Res.status_json 500 [("error", JString "Failed to login seller")], db) in
      match Seller.findOne db username with
      | Rejected _ => failed
      | Resolved None =>
          (Res.status_json 401 [("error", JString "Invalid credentials")], db)
      | Resolved (Some seller) =>
          match Bcrypt.compare password (s_password seller) with
          | Rejected _ => failed
          | Resolved matches =>
              if negb matches then
                (Res.status_json 401
                   [("error", JString "Invalid credentials")], db)
              else
                match Jwt.sign (s_id seller) (s_username seller)
                        (JWT_SECRET env) "1h" (now env) with
                | Resolved token => (Res.json [("token", JString token)], db)
                | Rejected _ => failed
                end
          end
      end.

(** *** GET /api/products (lines 92-100) *)
Definition getProducts : Handler :=
  λ env db req,
    match Product.find db with
    | Resolved ps => (Res.json_array (req_fresh (headers req) ps) ps, db)
    | Rejected _ =>
        (Res.status_json 500 [("error", JString "Failed to fetch products")], db)
    end.

(** *** POST /api/products (lines 103-117) *)
Definition addProduct : Handler :=
  λ env db req,
    let name := body req !! "name" in
    let description := body req !! "description" in
    if negb (Js.truthy_value name) || negb (Js.truthy_value description) then
      (Res.status_json 400
         [("error", JString "Product name and description are required")], db)
    else
      let failed :=
        (Res.status_json 500 [("error", JString "Failed to insert product")], db) in
      match Product.construct (new_id env) name description with
      | None => failed
      | Some newProduct =>
          match Product.save db newProduct with
          | Resolved db' =>
              (Res.status_json 201
                 [("message", JString "Product added successfully");
                  ("product", JDocument newProduct)], db')
          | Rejected _ => failed
          end
      end.

(** *** PUT /api/products/:id (lines 120-138) *)
Definition updateProduct (id : string) : Handler :=
  λ env db req,
    let name := body req !! "name" in
    let description := body req !! "description" in
    if negb (Js.truthy_value name) || negb (Js.truthy_value description) then
      (Res.status_json 400
         [("error", JString "Product name and description are required")], db)
    else
      match Product.findByIdAndUpdate db id name description with
      | Rejected _ =>
          (Res.status_json 500 [("error", JString "Failed to update product")], db)
      | Resolved (None, _) =>
          (Res.status_json 404 [("error", JString "Product not found")], db)
      | Resolved (Some updatedProduct, db') =>
          (Res.json [("message", JString "Product updated successfully");
                     ("product", JDocument updatedProduct)], db')
      end.

(** *** DELETE /api/products/:id (lines 141-154) *)
Definition deleteProduct (id : string) : Handler :=
  λ env db req,
    match Product.findByIdAndDelete db id with
    | Rejected _ =>
        (Res.status_json 500 [("error", JString "Failed to delete product")], db)
    | Resolved (None, _) =>
        (Res.status_json 404 [("error", JString "Product not found")], db)
    | Resolved (Some deletedProduct, db') =>
        (Res.json [("message", JString "Product deleted successfully")], db')
    end.

(** *** The router *)
Definition app : Handler :=
  λ env db req,
    match route req with
    | POST_sellers_signup => signup env db req
    | POST_sellers_login => login env db req
    | GET_products => getProducts env db req
    | POST_products => protect addProduct env db req
    | PUT_products id => protect (updateProduct id) env db req
    | DELETE_products id => protect (deleteProduct id) env db req
    end.

(** *** The application-level middleware (lines 10-11)

    [app.use(cors()); app.use(express.json())] run before every route.
    On the six routes [cors()] only adds a response header (it answers
    OPTIONS requests itself, and no route has that method); when the
    parser refuses the body no route runs. *)
Definition server (env : Env) (db : Db) (i : Incoming) : Response * Db :=
  match in_body i with
  | Refused code page => (mkResponse code (Text page), db)
  | Accepted b =>
      app env db
        (mkRequestWith (in_route i) (in_authorization i) b None (in_headers i))
  end.

(** The store after a sequence of requests, each with its surroundings. *)
Fixpoint serve (db : Db) (requests : list (Env * Request)) : Db :=
  match requests with
  | [] => db
  | (env, req) :: rest => serve (app env db req).2 rest
  end.

End Server.

(** ** Vocabulary of the properties *)

Definition mutating (r : Route) : bool :=
  match r with
  | POST_products | PUT_products _ | DELETE_products _ => true
  | POST_sellers_signup | POST_sellers_login | GET_products => false
  end.

(** The store before the first request. *)
Definition initial (up : bool) : Db := mkDb up [] [].

(** The store's own constraints: [_id] is unique in each collection and
    [username] is unique among the sellers. *)
Definition db_wf (db : Db) : Prop :=
  NoDup (s_id <$> sellers db)
  ∧ NoDup (s_username <$> sellers db)
  ∧ NoDup (p_id <$> products db).

(** The answer to a failed login. *)
Definition invalid_credentials : Response :=
  mkResponse 401 (Json [("error", JString "Invalid credentials")]).

(** The three answers of the signup route. *)
Definition signup_responses : list Response :=
  [ mkResponse 400 (Json [("error", JString "Username and password are required")]);
    mkResponse 201 (Json [("message", JString "Seller registered successfully")]);
    mkResponse 500 (Json [("error", JString "Failed to register seller")]) ].

(** The answers of the login route that carry no token. *)
Definition login_failures : list Response :=
  [ mkResponse 400 (Json [("error", JString "Username and password are required")]);
    invalid_credentials;
    mkResponse 500 (Json [("error", JString "Failed to login seller")]) ].

(** The answers to a request that lacks a required field. *)
Definition credentials_required : Response :=
  mkResponse 400 (Json [("error", JString "Username and password are required")]).

Definition fields_required : Response :=
  mkResponse 400
    (Json [("error", JString "Product name and description are required")]).

(** The status codes each route can answer with. *)
Definition statuses_of (r : Route) : list Z :=
  match r with
  | POST_sellers_signup => [201; 400; 500]
  | POST_sellers_login => [200; 400; 401; 500]
  | GET_products => [200; 304; 500]
  | POST_products => [201; 400; 401; 403; 500]
  | PUT_products _ => [200; 400; 401; 403; 404; 500]
  | DELETE_products _ => [200; 401; 403; 404; 500]
  end%Z.

(** The request as a handler receives it from the middleware. *)
Definition with_user (u : JwtPayload) (req : Request) : Request :=
  mkRequestWith (route req) (authorization req) (body req) (Some u)
    (headers req).

(** The request with one field of its body left out. *)
Definition without (field : string) (req : Request) : Request :=
  mkRequestWith (route req) (authorization req) (delete field (body req))
    (user req) (headers req).

(** ** Stand-ins for the libraries

    Executable instances of [Libraries], to run the application on concrete
    requests.  The cast is the one of the BSON library: a string of 24
    hexadecimal digits, read case-insensitively (its older releases also
    take any string of 12 characters).  The two cryptographic stand-ins
    keep the interfaces and nothing of the cryptography.  The cast to a
    String path takes strings, booleans and numbers (whole numbers are
    rendered in decimal, the others as an exact fraction, which is not
    JavaScript's rendering) and refuses the rest; the query condition
    knows equality and the operators [$eq] and [$ne]; freshness compares
    [If-None-Match] with a tag made of the number of products. *)

Module Stub.

Definition is_hex (c : ascii) : bool :=
  let n := nat_of_ascii c in
  ((48 <=? n) && (n <=? 57) || (97 <=? n) && (n <=? 102)
   || (65 <=? n) && (n <=? 70))%nat.

Definition lower (c : ascii) : ascii :=
  let n := nat_of_ascii c in
  if ((65 <=? n) && (n <=? 90))%nat then ascii_of_nat (n + 32) else c.

Fixpoint all_hex (s : string) : bool :=
  match s with
  | EmptyString => true
  | String c s' => is_hex c && all_hex s'
  end.

Fixpoint lowercase (s : string) : string :=
  match s with
  | EmptyString => EmptyString
  | String c s' => String (lower c) (lowercase s')
  end.

Definition cast (s : string) : option ObjectId :=
  if (String.length s =? 24)%nat && all_hex s then Some (lowercase s) else None.

Definition hash (data : string) (rounds : Z) (slt : string) : string :=
  "$2b$" +:+ pretty rounds +:+ "$" +:+ slt +:+ "$" +:+ data.

Definition compare (data encrypted : string) : bool :=
  match Js.split "$"%char encrypted with
  | [_; _; _; _; data'] => String.eqb data data'
  | _ => false
  end.

Definition sign (secret : string) (payload : JwtPayload) : string :=
  secret +:+ "." +:+ jp_id payload +:+ "." +:+ jp_username payload +:+ "."
  +:+ pretty (jp_iat payload) +:+ "."
  +:+ from_option pretty "" (jp_exp payload).

Definition number (s : string) : option Z :=
  match Jwt.leading_number None s with
  | (n, EmptyString) => n
  | _ => None
  end.

Definition verify (token : string) (secret : option string) (clock : Z)
  : option JwtPayload :=
  match secret, Js.split "."%char token with
  | Some k, [k'; id; username; iat; exp] =>
      if negb (String.eqb k "") && String.eqb k k' then
        match number iat, number exp with
        | Some i, Some e =>
            if (e <=? clock)%Z then None
            else Some (mkPayload id username i (Some e))
        | _, _ => None
        end
      else None
  | _, _ => None
  end.

Definition number_text (n : float) : string :=
  match Prim2SF n with
  | S754_zero _ => "0"
  | S754_infinity sign => if sign then "-Infinity" else "Infinity"
  | S754_nan => "NaN"
  | S754_finite sign m e =>
      (if sign then "-" else "") +:+
      (if (0 <=? e)%Z then pretty (Z.pos m * 2 ^ e)%Z
       else if (Z.pos m mod 2 ^ (- e) =? 0)%Z
            then pretty (Z.pos m / 2 ^ (- e))%Z
            else pretty (Z.pos m) +:+ "/2^" +:+ pretty (- e)%Z)
  end.

Definition cast_string (v : Value) : option string :=
  match v with
  | VString s => Some s
  | VBool b => Some (if b then "true" else "false")
  | VNumber n => Some (number_text n)
  | VNull | VArray _ | VObject _ => None
  end.

Definition condition (v : Value) : option (string → bool) :=
  match v with
  | VString s => Some (λ stored, String.eqb stored s)
  | VBool _ | VNumber _ =>
      (λ s stored, String.eqb stored s) <$> cast_string v
  | VObject [(op, VNull)] =>
      if String.eqb op "$ne" then Some (λ _, true)
      else if String.eqb op "$eq" then Some (λ _, false)
      else None
  | VObject [(op, VString s)] =>
      if String.eqb op "$ne" then Some (λ stored, negb (String.eqb stored s))
      else if String.eqb op "$eq" then Some (λ stored, String.eqb stored s)
      else None
  | _ => None
  end.

Definition etag (ps : list ProductDoc) : string :=
  "W/" +:+ pretty (Z.of_nat (length ps)).

Definition fresh (hs : gmap string string) (ps : list ProductDoc) : bool :=
  match hs !! "cache-control", hs !! "if-none-match" with
  | None, Some tag => String.eqb tag "*" || String.eqb tag (etag ps)
  | _, _ => false
  end.

#[export] Instance libraries : Libraries.
Proof.
  refine (Build_Libraries hash compare sign verify cast cast_string condition
            fresh _ _ _).
  - intros data rounds slt. unfold hash. simpl. discriminate.
  - reflexivity.
  - reflexivity.
Defined.

Definition env : Env :=
  mkEnv (Some "s3cret") 1700000000 "saltsaltsaltsaltsaltsa"
        "65f0a1b2c3d4e5f601234567".

Definition empty_db : Db := mkDb true [] [].

(** A seller registered with the password ["pw"], and two products. *)
Definition alice : SellerDoc :=
  mkSeller "65f0a1b2c3d4e5f60123aaaa" "alice" (hash "pw" 10 "saltsaltsaltsaltsaltsa").

Definition pen : ProductDoc :=
  mkProduct "65f0a1b2c3d4e5f60123bbbb" "Pen" "Blue ink pen".

Definition ink : ProductDoc :=
  mkProduct "65f0a1b2c3d4e5f60123cccc" "Ink" "Black ink".

Definition db : Db := mkDb true [alice] [pen; ink].

Definition alice_payload : JwtPayload :=
  mkPayload "65f0a1b2c3d4e5f60123aaaa" "alice" 1699999000 (Some 1700002600%Z).

(** A token alice was issued 1000 seconds before [env]'s clock value. *)
Definition token : string := sign "s3cret" alice_payload.

(** Another seller's token, valid at [env]'s clock value as well. *)
Definition bob_payload : JwtPayload :=
  mkPayload "65f0a1b2c3d4e5f60123eeee" "bob" 1699999500 (Some 1700003100%Z).

Definition bob_token : string := sign "s3cret" bob_payload.

Definition credentials (username password : string) : gmap string Value :=
  {[ "username" := VString username; "password" := VString password ]}.

Definition product_fields (name description : string) : gmap string Value :=
  {[ "name" := VString name; "description" := VString description ]}.

(** The same store with the connection down, and the surroundings half an
    hour after [env]. *)
Definition down_db : Db := mkDb false [alice] [pen; ink].

Definition later : Env :=
  mkEnv (Some "s3cret") 1700001800 "pepperpepperpepperpepp"
        "65f0a1b2c3d4e5f601239999".

(** Requests. *)
Definition bearer (t : string) : option string := Some ("Bearer " +:+ t).

Definition signup_request (username password : string) : Request :=
  mkRequest POST_sellers_signup None (credentials username password) None.

Definition login_request (username password : string) : Request :=
  mkRequest POST_sellers_login None (credentials username password) None.

Definition list_request (auth : option string) : Request :=
  mkRequest GET_products auth ∅ None.

Definition post_request (auth : option string) (name description : string)
  : Request :=
  mkRequest POST_products auth (product_fields name description) None.

Definition put_request (id : string) (auth : option string)
    (name description : string) : Request :=
  mkRequest (PUT_products id) auth (product_fields name description) None.

Definition delete_request (id : string) (auth : option string) : Request :=
  mkRequest (DELETE_products id) auth ∅ None.

End Stub.

(** * Properties *)

(** ** [split] *)

Module JsFacts.
Import Js.

Lemma split_not_nil sep s : split sep s ≠ [].
Proof.
  destruct s as [|c s]; simpl; [discriminate|].
  destruct (Ascii.eqb c sep); [discriminate|].
  destruct (split sep s); discriminate.
Qed.

(** A string without the separator is its own single piece. *)
Lemma split_free sep s : free_of sep s = true → split sep s = [s].
Proof.
  induction s as [|c s IH]; simpl; [done|].
  intros [Hc Hs]%andb_prop. apply negb_true_iff in Hc.
  rewrite Hc, (IH Hs). done.
Qed.

(** The first piece ends at the first separator. *)
Lemma split_app sep a b :
  free_of sep a = true →
  split sep (a +:+ String sep b) = a :: split sep b.
Proof.
  induction a as [|c a IH]; simpl.
  - intros _. by rewrite Ascii.eqb_refl.
  - intros [Hc Ha]%andb_prop. apply negb_true_iff in Hc.
    rewrite Hc, (IH Ha). done.
Qed.

(** No piece contains the separator. *)
Lemma split_pieces_free sep s : Forall (λ p, free_of sep p = true) (split sep s).
Proof.
  induction s as [|c s IH]; simpl.
  - by constructor.
  - destruct (Ascii.eqb c sep) eqn:Hc.
    + by constructor.
    + destruct (split sep s) as [|p ps]; [by repeat constructor; simpl; rewrite ?Hc|].
      inversion IH; subst. constructor; [|done]. simpl. by rewrite Hc.
Qed.

(** Gluing the pieces back with the separator gives the string. *)
Lemma join_split sep s : join sep (split sep s) = s.
Proof.
  induction s as [|c s IH]; simpl; [done|].
  destruct (Ascii.eqb c sep) eqn:Hc.
  - apply Ascii.eqb_eq in Hc as ->.
    pose proof (split_not_nil sep s).
    destruct (split sep s) as [|p ps] eqn:E; [done|]. simpl in *. by rewrite IH.
  - destruct (split sep s) as [|p ps] eqn:E.
    + by destruct (split_not_nil sep s).
    + destruct ps; simpl in *; by rewrite <- IH.
Qed.

(** Exactly the strings without the separator have no second piece. *)
Lemma split_second_none sep s :
  split sep s !! 1%nat = None ↔ free_of sep s = true.
Proof.
  split.
  - induction s as [|c s IH]; simpl; [done|].
    destruct (Ascii.eqb c sep) eqn:Hc.
    + pose proof (split_not_nil sep s). by destruct (split sep s).
    + destruct (split sep s) as [|p ps] eqn:E; [by destruct (split_not_nil sep s)|].
      simpl in *. auto.
  - intros ->%split_free. done.
Qed.

Lemma truthy_Some s : truthy (Some s) = true ↔ s ≠ "".
Proof.
  unfold truthy. rewrite negb_true_iff. split.
  - intros E ->. by rewrite String.eqb_refl in E.
  - intros Hne. by apply String.eqb_neq.
Qed.

Lemma truthy_default v : truthy v = true → v = Some (default "" v) ∧ default "" v ≠ "".
Proof.
  destruct v as [s|]; simpl; [|done].
  intros Hs. split; [done|]. by apply truthy_Some.
Qed.

End JsFacts.

(** ** The middleware *)

Section MiddlewareFacts.
Context {L : Libraries}.
Implicit Types (env : Env) (db : Db) (req : Request) (handler : Handler).

Lemma token_of_absent : token_of None = None.
Proof. done. Qed.

Lemma token_of_empty : token_of (Some "") = Some "".
Proof. done. Qed.

Lemma token_of_header h :
  h ≠ "" → token_of (Some h) = Js.split " " h !! 1%nat.
Proof.
  intros Hh. unfold token_of, Js.and.
  by apply JsFacts.truthy_Some in Hh as ->.
Qed.

Lemma authenticate_no_token env req :
  Js.truthy (token_of (authorization req)) = false →
  authenticateToken env req = Respond (mkResponse 401 (Text "Unauthorized")).
Proof. unfold authenticateToken. by intros ->. Qed.

Lemma authenticate_verified env req token :
  token_of (authorization req) = Some token → token ≠ "" →
  authenticateToken env req =
    match jwt_verify token (JWT_SECRET env) (now env) with
    | None => Respond (mkResponse 403 (Text "Forbidden"))
    | Some u => Next u
    end.
Proof.
  intros Ht Hne. unfold authenticateToken. rewrite Ht.
  apply JsFacts.truthy_Some in Hne as ->. done.
Qed.

Lemma protect_respond env db req handler res :
  authenticateToken env req = Respond res →
  protect handler env db req = (res, db).
Proof. unfold protect. by intros ->. Qed.

Lemma protect_next env db req handler u :
  authenticateToken env req = Next u →
  protect handler env db req =
    handler env db (with_user u req).
Proof. unfold protect. by intros ->. Qed.

Lemma app_mutating env db req :
  mutating (route req) = true →
  ∃ handler, app env db req = protect handler env db req.
Proof.
  unfold app. destruct (route req); try discriminate; intros _; eauto.
Qed.

(** C1: a product-mutating request without a token (in particular
    without an Authorization header) is answered 401, one whose token does
    not verify is answered 403, and in both cases the store is the one the
    request found. *)
Theorem unauthenticated_mutation_rejected env db req :
  mutating (route req) = true →
  (authorization req = None →
     ∃ res, app env db req = (res, db) ∧ status res = 401%Z) ∧
  (Js.truthy (token_of (authorization req)) = false →
     ∃ res, app env db req = (res, db) ∧ status res = 401%Z) ∧
  (∀ token,
     token_of (authorization req) = Some token → token ≠ "" →
     jwt_verify token (JWT_SECRET env) (now env) = None →
     ∃ res, app env db req = (res, db) ∧ status res = 403%Z).
Proof.
  intros [handler ->]%(app_mutating env db).
  assert (Hno : Js.truthy (token_of (authorization req)) = false →
                ∃ res, protect handler env db req = (res, db) ∧ status res = 401%Z).
  { intros Hno. eexists. split;
      [by apply protect_respond, authenticate_no_token | reflexivity]. }
  split; [|split].
  - intros Habs. apply Hno. by rewrite Habs.
  - exact Hno.
  - intros token Ht Hne Hv. exists (mkResponse 403 (Text "Forbidden")). split; [|done].
    apply protect_respond. by rewrite (authenticate_verified _ _ token), Hv.
Qed.

(** C4, as the code has it: without a token the middleware answers 401 and
    with a token that does not verify it answers 403, each time with the
    status text as body ("Unauthorized", "Forbidden"), and whatever handler
    the route has, it is not run: the response is the middleware's and the
    store is untouched. *)
Theorem middleware_rejection env db req handler :
  (Js.truthy (token_of (authorization req)) = false →
     authenticateToken env req = Respond (mkResponse 401 (Text "Unauthorized"))
     ∧ protect handler env db req = (mkResponse 401 (Text "Unauthorized"), db))
  ∧
  (∀ token,
     token_of (authorization req) = Some token → token ≠ "" →
     jwt_verify token (JWT_SECRET env) (now env) = None →
     authenticateToken env req = Respond (mkResponse 403 (Text "Forbidden"))
     ∧ protect handler env db req = (mkResponse 403 (Text "Forbidden"), db)).
Proof.
  split.
  - intros Hno. pose proof (authenticate_no_token env req Hno) as E.
    split; [done|]. by apply protect_respond.
  - intros token Ht Hne Hv.
    pose proof (authenticate_verified env req token Ht Hne) as E.
    rewrite Hv in E. split; [done|]. by apply protect_respond.
Qed.

(** C9: the scheme word of the Authorization header is never looked at.
    The token is the second piece of the header split at spaces: when that
    piece is non-empty and verifies, the request passes, whatever precedes
    the first space ("Basic", "Bearer", nothing) and whatever follows the
    second; a header without a space, or with nothing between its first
    space and the next one (or the end), is answered 401. *)
Theorem scheme_is_never_checked env req h :
  authorization req = Some h →
  (∀ token u,
     Js.split " " h !! 1%nat = Some token → token ≠ "" →
     jwt_verify token (JWT_SECRET env) (now env) = Some u →
     authenticateToken env req = Next u)
  ∧
  (∀ scheme token u,
     Js.free_of " " scheme = true → Js.free_of " " token = true →
     token ≠ "" →
     h = scheme +:+ " " +:+ token →
     jwt_verify token (JWT_SECRET env) (now env) = Some u →
     authenticateToken env req = Next u)
  ∧
  (Js.free_of " " h = true →
     authenticateToken env req = Respond (mkResponse 401 (Text "Unauthorized")))
  ∧
  (Js.split " " h !! 1%nat = Some "" →
     authenticateToken env req = Respond (mkResponse 401 (Text "Unauthorized"))).
Proof.
  intros Hh.
  assert (Hsecond : ∀ token u,
     Js.split " " h !! 1%nat = Some token → token ≠ "" →
     jwt_verify token (JWT_SECRET env) (now env) = Some u →
     authenticateToken env req = Next u).
  { intros token u Hsplit Hne Hv.
    assert (h ≠ "") as Hne' by (intros ->; discriminate).
    rewrite (authenticate_verified env req token), Hv; [done| |done].
    by rewrite Hh, token_of_header. }
  split; [exact Hsecond|]. split; [|split].
  - intros scheme token u Hs Ht Hne -> Hv.
    apply (Hsecond token u); [|done..].
    change (scheme +:+ " " +:+ token) with (scheme +:+ String " " token).
    by rewrite JsFacts.split_app, JsFacts.split_free.
  - intros Hfree. apply authenticate_no_token. rewrite Hh.
    destruct (decide (h = "")) as [->|Hne]; [done|].
    rewrite token_of_header by done.
    by apply JsFacts.split_second_none in Hfree as ->.
  - intros Hsplit. apply authenticate_no_token. rewrite Hh.
    destruct (decide (h = "")) as [->|Hne]; [done|].
    by rewrite token_of_header, Hsplit.
Qed.

End MiddlewareFacts.

(** ** The store *)

Module StoreFacts.

Lemma required_iff v : required v = true ↔ v ≠ "".
Proof.
  unfold required. rewrite negb_true_iff. split.
  - intros E ->. by rewrite String.eqb_refl in E.
  - intros Hne. by apply String.eqb_neq.
Qed.

Lemma seller_has_username_false u l :
  Seller.has_username u l = false ↔ ∀ s, s ∈ l → s_username s ≠ u.
Proof.
  unfold Seller.has_username. induction l as [|x l IH]; simpl.
  - split; [|done]. intros _ s Hs. by apply elem_of_nil in Hs.
  - rewrite orb_false_iff, IH, String.eqb_neq. split.
    + intros [Hx Hl] s [->|Hs]%elem_of_cons; auto.
    + intros Hall. split; [apply Hall; left|]. intros s Hs. apply Hall. by right.
Qed.

Lemma seller_has_id_false i l :
  Seller.has_id i l = false ↔ ∀ s, s ∈ l → s_id s ≠ i.
Proof.
  unfold Seller.has_id. induction l as [|x l IH]; simpl.
  - split; [|done]. intros _ s Hs. by apply elem_of_nil in Hs.
  - rewrite orb_false_iff, IH, String.eqb_neq. split.
    + intros [Hx Hl] s [->|Hs]%elem_of_cons; auto.
    + intros Hall. split; [apply Hall; left|]. intros s Hs. apply Hall. by right.
Qed.

Lemma product_has_id_false i l :
  Product.has_id i l = false ↔ ∀ p, p ∈ l → p_id p ≠ i.
Proof.
  unfold Product.has_id. induction l as [|x l IH]; simpl.
  - split; [|done]. intros _ s Hs. by apply elem_of_nil in Hs.
  - rewrite orb_false_iff, IH, String.eqb_neq. split.
    + intros [Hx Hl] s [->|Hs]%elem_of_cons; auto.
    + intros Hall. split; [apply Hall; left|]. intros s Hs. apply Hall. by right.
Qed.

(** No seller carries the username: the lookup finds nobody. *)
Lemma find_username_none u l :
  (∀ s, s ∈ l → s_username s ≠ u) →
  List.find (λ s, String.eqb (s_username s) u) l = None.
Proof.
  induction l as [|x l IH]; simpl; [done|]. intros Hall.
  assert (s_username x ≠ u) as ->%String.eqb_neq by (apply Hall; left).
  apply IH. intros s Hs. apply Hall. by right.
Qed.

(** Usernames being unique, the lookup finds the seller who has it. *)
Lemma find_username_unique s l :
  NoDup (s_username <$> l) → s ∈ l →
  List.find (λ x, String.eqb (s_username x) (s_username s)) l = Some s.
Proof.
  induction l as [|x l IH]; simpl.
  - intros _ Hs. by apply elem_of_nil in Hs.
  - intros [Hx Hl]%NoDup_cons [->|Hs]%elem_of_cons.
    + by rewrite String.eqb_refl.
    + destruct (String.eqb (s_username x) (s_username s)) eqn:E; [|auto].
      apply String.eqb_eq in E. destruct Hx. rewrite E.
      by apply list_elem_of_fmap_2.
Qed.

(** What [update_first] does, read off its result. *)
Lemma update_first_None oid n d l :
  Product.update_first oid n d l = None ↔ ∀ p, p ∈ l → p_id p ≠ oid.
Proof.
  induction l as [|x l IH]; simpl.
  - split; [|done]. intros _ p Hp. by apply elem_of_nil in Hp.
  - destruct (String.eqb (p_id x) oid) eqn:E.
    + apply String.eqb_eq in E. split; [done|].
      intros Hall. destruct (Hall x); [left|done].
    + apply String.eqb_neq in E.
      destruct (Product.update_first oid n d l) as [[p' l']|].
      * split; [done|]. intros Hall.
        assert (Some (p', l') = None) by (apply IH; intros p Hp; apply Hall; by right).
        done.
      * split; [|done]. intros _ p [->|Hp]%elem_of_cons; [done|].
        by apply IH.
Qed.

Lemma update_first_at oid n d l1 p l2 :
  p_id p = oid → (∀ q, q ∈ l1 → p_id q ≠ oid) →
  Product.update_first oid n d (l1 ++ p :: l2)
  = Some (mkProduct oid n d, l1 ++ mkProduct oid n d :: l2).
Proof.
  intros Hp. induction l1 as [|x l1 IH]; simpl; intros Hall.
  - apply String.eqb_eq in Hp as E. by rewrite E, Hp.
  - assert (p_id x ≠ oid) as ->%String.eqb_neq by (apply Hall; left).
    rewrite IH; [done|]. intros q Hq. apply Hall. by right.
Qed.

Lemma update_first_Some oid n d l p' l' :
  Product.update_first oid n d l = Some (p', l') →
  ∃ l1 p l2, l = l1 ++ p :: l2 ∧ p_id p = oid
    ∧ (∀ q, q ∈ l1 → p_id q ≠ oid)
    ∧ p' = mkProduct oid n d ∧ l' = l1 ++ p' :: l2.
Proof.
  revert l'. induction l as [|x l IH]; simpl; [done|]. intros l'.
  destruct (String.eqb (p_id x) oid) eqn:E.
  - apply String.eqb_eq in E. intros [= <- <-].
    exists [], x, l. rewrite E. repeat split; try done.
    intros q Hq. by apply elem_of_nil in Hq.
  - apply String.eqb_neq in E.
    destruct (Product.update_first oid n d l) as [[q l'']|]; [|done].
    intros [= <- <-].
    destruct (IH l'' eq_refl) as (l1 & p & l2 & -> & Hp & Hl1 & -> & ->).
    exists (x :: l1), p, l2. repeat split; try done.
    intros r [->|Hr]%elem_of_cons; auto.
Qed.

(** The same for [remove_first]. *)
Lemma remove_first_None oid l :
  Product.remove_first oid l = None ↔ ∀ p, p ∈ l → p_id p ≠ oid.
Proof.
  induction l as [|x l IH]; simpl.
  - split; [|done]. intros _ p Hp. by apply elem_of_nil in Hp.
  - destruct (String.eqb (p_id x) oid) eqn:E.
    + apply String.eqb_eq in E. split; [done|].
      intros Hall. destruct (Hall x); [left|done].
    + apply String.eqb_neq in E.
      destruct (Product.remove_first oid l) as [[p' l']|].
      * split; [done|]. intros Hall.
        assert (Some (p', l') = None) by (apply IH; intros p Hp; apply Hall; by right).
        done.
      * split; [|done]. intros _ p [->|Hp]%elem_of_cons; [done|].
        by apply IH.
Qed.

Lemma remove_first_at oid l1 p l2 :
  p_id p = oid → (∀ q, q ∈ l1 → p_id q ≠ oid) →
  Product.remove_first oid (l1 ++ p :: l2) = Some (p, l1 ++ l2).
Proof.
  intros Hp. induction l1 as [|x l1 IH]; simpl; intros Hall.
  - apply String.eqb_eq in Hp as E. by rewrite E.
  - assert (p_id x ≠ oid) as ->%String.eqb_neq by (apply Hall; left).
    rewrite IH; [done|]. intros q Hq. apply Hall. by right.
Qed.

Lemma remove_first_Some oid l p l' :
  Product.remove_first oid l = Some (p, l') →
  ∃ l1 l2, l = l1 ++ p :: l2 ∧ p_id p = oid
    ∧ (∀ q, q ∈ l1 → p_id q ≠ oid) ∧ l' = l1 ++ l2.
Proof.
  revert l'. induction l as [|x l IH]; simpl; [done|]. intros l'.
  destruct (String.eqb (p_id x) oid) eqn:E.
  - apply String.eqb_eq in E. intros [= <- <-].
    exists [], l. repeat split; try done.
    intros q Hq. by apply elem_of_nil in Hq.
  - apply String.eqb_neq in E.
    destruct (Product.remove_first oid l) as [[q l'']|]; [|done].
    intros [= <- <-].
    destruct (IH l'' eq_refl) as (l1 & l2 & -> & Hp & Hl1 & ->).
    exists (x :: l1), l2. repeat split; try done.
    intros r [->|Hr]%elem_of_cons; auto.
Qed.

End StoreFacts.

(** ** Sellers: signup and login *)

(** A present, non-empty field passes the presence check. *)
Ltac present H Hne :=
  rewrite H; simpl;
  let E := fresh "E" in
  pose proof (proj2 (String.eqb_neq _ _) Hne) as E; rewrite E; simpl; clear E.

Section SellerFacts.
Context {L : Libraries}.
Implicit Types (env : Env) (db : Db) (req : Request) (s : SellerDoc).

Lemma login_present env db req u p :
  body req !! "username" = Some (VString u) → u ≠ "" →
  body req !! "password" = Some (VString p) → p ≠ "" →
  login env db req =
    match Seller.findOne db (Some (VString u)) with
    | Rejected _ =>
        (mkResponse 500 (Json [("error", JString "Failed to login seller")]), db)
    | Resolved None => (invalid_credentials, db)
    | Resolved (Some seller) =>
        if negb (bcrypt_compare p (s_password seller))
        then (invalid_credentials, db)
        else match Jwt.sign (s_id seller) (s_username seller)
                     (JWT_SECRET env) "1h" (now env) with
             | Resolved token =>
                 (mkResponse 200 (Json [("token", JString token)]), db)
             | Rejected _ =>
                 (mkResponse 500
                    (Json [("error", JString "Failed to login seller")]), db)
             end
    end.
Proof.
  intros Hu Hune Hp Hpne. unfold login.
  present Hu Hune. present Hp Hpne. reflexivity.
Qed.

Lemma findOne_string db u :
  Seller.findOne db (Some (VString u))
  = Seller.findOneWhere db (λ stored, String.eqb stored u).
Proof. unfold Seller.findOne. by rewrite castCondition_string. Qed.

Lemma findOne_nobody db u :
  connected db = true → (∀ s, s ∈ sellers db → s_username s ≠ u) →
  Seller.findOne db (Some (VString u)) = Resolved None.
Proof.
  intros Hc Hall. rewrite findOne_string. unfold Seller.findOneWhere.
  rewrite Hc. simpl. by rewrite StoreFacts.find_username_none.
Qed.

Lemma findOne_seller db s :
  connected db = true → db_wf db → s ∈ sellers db →
  Seller.findOne db (Some (VString (s_username s))) = Resolved (Some s).
Proof.
  intros Hc (_ & Hnames & _) Hs. rewrite findOne_string.
  unfold Seller.findOneWhere. rewrite Hc. simpl.
  by rewrite StoreFacts.find_username_unique.
Qed.

(** The span ["1h"] is one hour: 3600 seconds after the issue time. *)
Lemma timespan_1h iat : Jwt.timespan "1h" iat = Some (iat + 3600)%Z.
Proof. reflexivity. Qed.

Lemma sign_with_secret id username k iat :
  k ≠ "" →
  Jwt.sign id username (Some k) "1h" iat
  = Resolved (jws_sign k (mkPayload id username iat (Some (iat + 3600)%Z))).
Proof.
  intros Hk. unfold Jwt.sign.
  apply JsFacts.truthy_Some in Hk as ->. reflexivity.
Qed.

(** C2, as the code has it: for a login whose username and password are
    non-empty strings, a (reachable) store that holds no seller of that
    username and one that holds the seller, but with a hash the password
    does not match, give the same response: 401 with the body
    [{ error: 'Invalid credentials' }]. *)
Theorem login_failures_indistinguishable envA envB dbA dbB req u p s :
  route req = POST_sellers_login →
  body req !! "username" = Some (VString u) → u ≠ "" →
  body req !! "password" = Some (VString p) → p ≠ "" →
  connected dbA = true → (∀ s', s' ∈ sellers dbA → s_username s' ≠ u) →
  connected dbB = true → db_wf dbB →
  s ∈ sellers dbB → s_username s = u →
  bcrypt_compare p (s_password s) = false →
  app envA dbA req
    = (mkResponse 401 (Json [("error", JString "Invalid credentials")]), dbA)
  ∧ app envB dbB req
    = (mkResponse 401 (Json [("error", JString "Invalid credentials")]), dbB)
  ∧ (app envA dbA req).1 = (app envB dbB req).1.
Proof.
  intros Hr Hu Hune Hp Hpne HcA Hnone HcB Hwf Hs Hsu Hcmp.
  assert (EA : app envA dbA req = (invalid_credentials, dbA)).
  { unfold app. rewrite Hr, (login_present _ _ _ u p) by done.
    by rewrite findOne_nobody. }
  assert (EB : app envB dbB req = (invalid_credentials, dbB)).
  { unfold app. rewrite Hr, (login_present _ _ _ u p) by done.
    rewrite <- Hsu, findOne_seller by done. by rewrite Hcmp. }
  rewrite EA, EB. done.
Qed.

(** C3: a login whose username is a seller's and whose password matches
    the stored hash is answered 200 with [{ token }], the token being the
    signature, under the server's secret, of the payload made of that
    seller's id and username, issued now and expiring 3600 seconds later
    (the store being reachable and [JWT_SECRET] set). *)
Theorem login_issues_token env db req u p s k :
  route req = POST_sellers_login →
  body req !! "username" = Some (VString u) → u ≠ "" →
  body req !! "password" = Some (VString p) → p ≠ "" →
  connected db = true → db_wf db →
  s ∈ sellers db → s_username s = u →
  bcrypt_compare p (s_password s) = true →
  JWT_SECRET env = Some k → k ≠ "" →
  app env db req
  = (mkResponse 200
       (Json [("token",
               JString (jws_sign k
                          {| jp_id := s_id s;
                             jp_username := s_username s;
                             jp_iat := now env;
                             jp_exp := Some (now env + 3600)%Z |}))]),
     db).
Proof.
  intros Hr Hu Hune Hp Hpne Hc Hwf Hs Hsu Hcmp Hk Hkne.
  unfold app. rewrite Hr, (login_present _ _ _ u p) by done.
  rewrite <- Hsu, findOne_seller by done.
  by rewrite Hcmp, Hk, sign_with_secret.
Qed.

Lemma signup_present env db req u p :
  body req !! "username" = Some (VString u) → u ≠ "" →
  body req !! "password" = Some (VString p) → p ≠ "" →
  signup env db req =
    match Seller.save db (mkSeller (new_id env) u (bcrypt_hash p 10 (salt env))) with
    | Resolved db' =>
        (mkResponse 201
           (Json [("message", JString "Seller registered successfully")]), db')
    | Rejected _ =>
        (mkResponse 500 (Json [("error", JString "Failed to register seller")]), db)
    end.
Proof.
  intros Hu Hune Hp Hpne. unfold signup.
  present Hu Hune. present Hp Hpne.
  unfold Seller.construct, castField. by rewrite castString_string.
Qed.

Lemma signup_absent env db req :
  Js.truthy_value (body req !! "username") = false
  ∨ Js.truthy_value (body req !! "password") = false →
  signup env db req
  = (mkResponse 400
       (Json [("error", JString "Username and password are required")]), db).
Proof.
  unfold signup. intros [-> | ->]; simpl; [done|].
  by rewrite orb_true_r.
Qed.

Lemma login_absent env db req :
  Js.truthy_value (body req !! "username") = false
  ∨ Js.truthy_value (body req !! "password") = false →
  login env db req
  = (mkResponse 400
       (Json [("error", JString "Username and password are required")]), db).
Proof.
  unfold login. intros [-> | ->]; simpl; [done|].
  by rewrite orb_true_r.
Qed.

(** When the insert goes through, and what it leaves. *)
Lemma seller_save_resolved db doc :
  s_username doc ≠ "" → s_password doc ≠ "" → connected db = true →
  (∀ s, s ∈ sellers db → s_id s ≠ s_id doc) →
  (∀ s, s ∈ sellers db → s_username s ≠ s_username doc) →
  Seller.save db doc = Resolved (with_sellers db (sellers db ++ [doc])).
Proof.
  intros Hu%StoreFacts.required_iff Hp%StoreFacts.required_iff Hc
         Hid%StoreFacts.seller_has_id_false
         Hname%StoreFacts.seller_has_username_false.
  unfold Seller.save. by rewrite Hu, Hp, Hc, Hid, Hname.
Qed.

Lemma seller_save_inv db doc db' :
  Seller.save db doc = Resolved db' →
  db' = with_sellers db (sellers db ++ [doc])
  ∧ (∀ s, s ∈ sellers db → s_id s ≠ s_id doc)
  ∧ (∀ s, s ∈ sellers db → s_username s ≠ s_username doc).
Proof.
  unfold Seller.save.
  destruct (negb _); [done|]. destruct (negb _); [done|].
  destruct (_ || _) eqn:E; [done|]. intros [= <-].
  apply orb_false_iff in E as [Hid Hname].
  split; [done|]. split.
  - by apply StoreFacts.seller_has_id_false.
  - by apply StoreFacts.seller_has_username_false.
Qed.

Lemma seller_save_required db doc db' :
  Seller.save db doc = Resolved db' → s_username doc ≠ "".
Proof.
  unfold Seller.save. destruct (required (s_username doc)) eqn:E; [|done].
  intros _. by apply StoreFacts.required_iff.
Qed.

Lemma castField_string (v : option Value) u0 :
  v = Some (VString u0) → castField v = Some u0.
Proof. intros ->. apply castString_string. Qed.

Lemma truthy_string (v : option Value) p :
  v = Some (VString p) → Js.truthy_value v = true → p ≠ "".
Proof. intros ->. simpl. rewrite negb_true_iff. by intros ?%String.eqb_neq. Qed.

(** Every answer of the signup route, with the store it leaves. *)
Lemma signup_cases env db req :
  signup env db req
  = (mkResponse 400
       (Json [("error", JString "Username and password are required")]), db)
  ∨ signup env db req
    = (mkResponse 500 (Json [("error", JString "Failed to register seller")]), db)
  ∨ ∃ u p,
      castField (body req !! "username") = Some u ∧ u ≠ "" ∧
      body req !! "password" = Some (VString p) ∧ p ≠ "" ∧
      (∀ s, s ∈ sellers db → s_username s ≠ u) ∧
      signup env db req
      = (mkResponse 201
           (Json [("message", JString "Seller registered successfully")]),
         with_sellers db
           (sellers db ++ [mkSeller (new_id env) u (bcrypt_hash p 10 (salt env))])).
Proof.
  unfold signup.
  destruct (Js.truthy_value (body req !! "username")) eqn:Hu; [|by left].
  destruct (Js.truthy_value (body req !! "password")) eqn:Hp; [|by left].
  simpl. right. unfold Bcrypt.hash.
  destruct (body req !! "password") as [[| | |p| |]|] eqn:Ep; try by left.
  pose proof (truthy_string _ p eq_refl Hp) as Hpne.
  unfold Seller.construct.
  destruct (castField (body req !! "username")) as [u|] eqn:Eu; [|by left].
  destruct (Seller.save _ _) as [db'|e] eqn:E; [right|by left].
  pose proof (seller_save_required _ _ _ E) as Hune.
  apply seller_save_inv in E as (-> & _ & Hname). eauto 10.
Qed.

(** Every answer of the login route; it never changes the store. *)
Lemma login_cases env db req :
  (login env db req).2 = db
  ∧ ((login env db req).1 ∈ login_failures
     ∨ ∃ s k, s ∈ sellers db ∧ JWT_SECRET env = Some k ∧
         (login env db req).1
         = mkResponse 200
             (Json [("token",
                     JString (jws_sign k
                       (mkPayload (s_id s) (s_username s) (now env)
                                  (Some (now env + 3600)%Z))))])).
Proof.
  unfold login_failures, login.
  destruct (_ || _); simpl; [split; [done|left; set_solver]|].
  unfold Seller.findOne.
  destruct (body req !! "username") as [v|]; [|split; [done|left; set_solver]].
  destruct (castCondition v) as [condition|]; [|split; [done|left; set_solver]].
  unfold Seller.findOneWhere. destruct (connected db); simpl;
    [|split; [done|left; set_solver]].
  destruct (List.find _ _) as [s|] eqn:Hfind;
    [|split; [done|left; set_solver]].
  apply find_some in Hfind as [Hs%list_elem_of_In _].
  destruct (Bcrypt.compare _ _) as [[|]|]; simpl;
    [|split; [done|left; set_solver]..].
  unfold Jwt.sign. destruct (JWT_SECRET env) as [k|] eqn:Hk; simpl;
    [|split; [done|left; set_solver]].
  destruct (String.eqb k ""); simpl; [split; [done|left; set_solver]|].
  split; [done|]. right. exists s, k. done.
Qed.

End SellerFacts.

(** ** Products *)

Section ProductFacts.
Context {L : Libraries}.
Implicit Types (env : Env) (db : Db) (req : Request) (p : ProductDoc).

Lemma addProduct_absent env db req :
  Js.truthy_value (body req !! "name") = false
  ∨ Js.truthy_value (body req !! "description") = false →
  addProduct env db req = (fields_required, db).
Proof.
  unfold addProduct. intros [-> | ->]; simpl; [done|].
  by rewrite orb_true_r.
Qed.

Lemma updateProduct_absent id env db req :
  Js.truthy_value (body req !! "name") = false
  ∨ Js.truthy_value (body req !! "description") = false →
  updateProduct id env db req = (fields_required, db).
Proof.
  unfold updateProduct. intros [-> | ->]; simpl; [done|].
  by rewrite orb_true_r.
Qed.

Lemma addProduct_present env db req n d :
  body req !! "name" = Some (VString n) → n ≠ "" →
  body req !! "description" = Some (VString d) → d ≠ "" →
  addProduct env db req =
    match Product.save db (mkProduct (new_id env) n d) with
    | Resolved db' =>
        (mkResponse 201
           (Json [("message", JString "Product added successfully");
                  ("product", JDocument (mkProduct (new_id env) n d))]), db')
    | Rejected _ =>
        (mkResponse 500 (Json [("error", JString "Failed to insert product")]), db)
    end.
Proof.
  intros Hn Hnne Hd Hdne. unfold addProduct.
  present Hn Hnne. present Hd Hdne.
  unfold Product.construct, castField. by rewrite !castString_string.
Qed.



Lemma product_save_inv db doc db' :
  Product.save db doc = Resolved db' →
  db' = with_products db (products db ++ [doc])
  ∧ (∀ p, p ∈ products db → p_id p ≠ p_id doc).
Proof.
  unfold Product.save.
  destruct (negb _); [done|]. destruct (negb _); [done|].
  destruct (Product.has_id _ _) eqn:E; [done|]. intros [= <-].
  split; [done|]. by apply StoreFacts.product_has_id_false.
Qed.

(** An authenticated PUT reaches its handler with the same body. *)
Lemma app_put env db req id u :
  route req = PUT_products id → authenticateToken env req = Next u →
  app env db req
  = updateProduct id env db
      (with_user u req).
Proof. intros Hr Hauth. unfold app. by rewrite Hr, (protect_next _ _ _ _ u). Qed.

Lemma app_delete env db req id u :
  route req = DELETE_products id → authenticateToken env req = Next u →
  app env db req
  = deleteProduct id env db
      (with_user u req).
Proof. intros Hr Hauth. unfold app. by rewrite Hr, (protect_next _ _ _ _ u). Qed.


(** C7, as the code has it: an authenticated DELETE whose id casts to an
    ObjectId, on a reachable store, is answered 404 with the store
    unchanged when no product has that id, and otherwise 200 with the
    confirmation message alone, the (first) product of that id being taken
    out of the store and nothing else changing.  When the id does not cast,
    or the store is unreachable, the answer is 500 and the store is
    unchanged. *)
Theorem delete_product_outcomes env db req id u :
  route req = DELETE_products id →
  authenticateToken env req = Next u →
  (castObjectId id = None ∨ connected db = false →
     app env db req
     = (mkResponse 500 (Json [("error", JString "Failed to delete product")]), db))
  ∧
  (∀ oid, castObjectId id = Some oid → connected db = true →
     ((∀ p, p ∈ products db → p_id p ≠ oid) →
        app env db req
        = (mkResponse 404 (Json [("error", JString "Product not found")]), db))
     ∧
     (∀ l1 p l2,
        products db = l1 ++ p :: l2 → p_id p = oid →
        (∀ q, q ∈ l1 → p_id q ≠ oid) →
        app env db req
        = (mkResponse 200
             (Json [("message", JString "Product deleted successfully")]),
           with_products db (l1 ++ l2)))).
Proof.
  intros Hr Hauth.
  rewrite (app_delete env db req id u Hr Hauth).
  unfold deleteProduct, Product.findByIdAndDelete. split.
  - intros [-> | Hc]; [done|]. rewrite Hc. by destruct (castObjectId id).
  - intros oid -> ->. simpl. split.
    + intros Hnone%StoreFacts.remove_first_None. by rewrite Hnone.
    + intros l1 p l2 -> Hp Hl1. by rewrite StoreFacts.remove_first_at.
Qed.

End ProductFacts.

(** ** Presence checks and what reaches the store *)

Section Validation.
Context {L : Libraries}.
Implicit Types (env : Env) (db : Db) (req : Request).

Lemma truthy_empty req f :
  body req !! f = Some (VString "") → Js.truthy_value (body req !! f) = false.
Proof. by intros ->. Qed.

Lemma truthy_without req f : Js.truthy_value (body (without f req) !! f) = false.
Proof. unfold without. simpl. by rewrite lookup_delete_eq. Qed.

Lemma authenticate_without env req f :
  authenticateToken env (without f req) = authenticateToken env req.
Proof. reflexivity. Qed.

(** C8: a signup that lacks the username or the password is answered 400
    and leaves the store as it was; a signup that succeeds is answered 201
    with the confirmation message as the only field of the body (no id, no
    token), and it does succeed when both fields are non-empty, the store
    is reachable, and neither the username nor the new id is taken. *)
Theorem signup_missing_and_success env db req :
  route req = POST_sellers_signup →
  (body req !! "username" = None ∨ body req !! "password" = None →
     app env db req
     = (mkResponse 400
          (Json [("error", JString "Username and password are required")]), db))
  ∧
  (∀ res db', app env db req = (res, db') → status res = 201%Z →
     res_body res = Json [("message", JString "Seller registered successfully")])
  ∧
  (∀ u p,
     body req !! "username" = Some (VString u) → u ≠ "" →
     body req !! "password" = Some (VString p) → p ≠ "" →
     connected db = true →
     (∀ s, s ∈ sellers db → s_username s ≠ u) →
     (∀ s, s ∈ sellers db → s_id s ≠ new_id env) →
     app env db req
     = (mkResponse 201
          (Json [("message", JString "Seller registered successfully")]),
        with_sellers db
          (sellers db ++ [mkSeller (new_id env) u (bcrypt_hash p 10 (salt env))]))).
Proof.
  intros Hr. unfold app. rewrite Hr. split; [|split].
  - intros Hmiss. apply signup_absent. destruct Hmiss as [-> | ->]; auto.
  - intros res db'.
    destruct (signup_cases env db req) as [-> | [-> | (u & p & _ & _ & _ & _ & _ & ->)]];
      intros [= <- <-]; simpl; done.
  - intros u p Hu Hune Hp Hpne Hc Hname Hid.
    rewrite (signup_present env db req u p) by done.
    rewrite seller_save_resolved; simpl; try done.
    apply bcrypt_hash_nonempty.
Qed.

(** C10, as the code has it: an empty string in a required field is a
    missing field.  For signup, login, add-product and update-product, a
    request whose required field is the empty string gets the answer of the
    same request without the field.  For signup and login that answer is
    the 400 of the route, with the store unchanged; for add-product and
    update-product it is that 400 once the middleware has let the request
    through (before that, it is the middleware's 401 or 403). *)
Theorem empty_field_is_missing env db req f :
  body req !! f = Some (VString "") →
  (f = "username" ∨ f = "password" →
   route req = POST_sellers_signup ∨ route req = POST_sellers_login →
     app env db req = (credentials_required, db)
     ∧ app env db (without f req) = (credentials_required, db))
  ∧
  (f = "name" ∨ f = "description" →
   route req = POST_products ∨ (∃ id, route req = PUT_products id) →
     app env db req = app env db (without f req)
     ∧ ∀ u, authenticateToken env req = Next u →
         app env db req = (fields_required, db)
         ∧ app env db (without f req) = (fields_required, db)).
Proof.
  intros Hf. pose proof (truthy_empty req f Hf) as He.
  pose proof (truthy_without req f) as Hw.
  split.
  - intros Hfield Hroute. unfold app. simpl.
    destruct Hroute as [-> | ->]; split;
      (apply signup_absent || apply login_absent);
      destruct Hfield as [-> | ->]; auto.
  - intros Hfield Hroute.
    assert (Hreq : ∀ u, authenticateToken env req = Next u →
              app env db req = (fields_required, db)).
    { intros u Hauth. unfold app.
      destruct Hroute as [-> | [id ->]]; rewrite (protect_next _ _ _ _ u Hauth);
        (apply addProduct_absent || apply updateProduct_absent); simpl;
        destruct Hfield as [-> | ->]; auto. }
    assert (Hwo : ∀ u, authenticateToken env req = Next u →
              app env db (without f req) = (fields_required, db)).
    { intros u Hauth. unfold app. simpl.
      destruct Hroute as [-> | [id ->]];
        rewrite (protect_next _ _ (without f req) _ u Hauth);
        (apply addProduct_absent || apply updateProduct_absent); simpl;
        change (delete f (body req)) with (body (without f req));
        destruct Hfield as [-> | ->]; auto. }
    split; [|intros u Hu; split; eauto].
    destruct (authenticateToken env req) as [res|u] eqn:Hauth.
    + unfold app. simpl.
      destruct Hroute as [-> | [id ->]];
        by rewrite !(protect_respond _ _ _ _ res).
    + by rewrite (Hreq u), (Hwo u).
Qed.

End Validation.

(** ** The seller collection and the passwords *)

Section Passwords.
Context {L : Libraries}.
Implicit Types (env : Env) (db : Db) (req : Request).

Lemma addProduct_sellers env db req : sellers (addProduct env db req).2 = sellers db.
Proof.
  unfold addProduct. destruct (_ || _); [done|].
  destruct (Product.construct _ _ _) as [doc|]; [|done].
  destruct (Product.save _ _) as [db'|] eqn:E; [|done].
  by apply product_save_inv in E as [-> _].
Qed.

Lemma updateProduct_sellers id env db req :
  sellers (updateProduct id env db req).2 = sellers db.
Proof.
  unfold updateProduct, Product.findByIdAndUpdate. destruct (_ || _); [done|].
  destruct (castObjectId id); [|done].
  destruct (castField _); [|done]. destruct (castField _); [|done].
  destruct (negb _); [done|].
  by destruct (Product.update_first _ _ _ _) as [[??]|].
Qed.

Lemma deleteProduct_sellers id env db req :
  sellers (deleteProduct id env db req).2 = sellers db.
Proof.
  unfold deleteProduct, Product.findByIdAndDelete.
  destruct (castObjectId id); [|done]. destruct (negb _); [done|].
  by destruct (Product.remove_first _ _) as [[??]|].
Qed.

Lemma getProducts_db env db req : (getProducts env db req).2 = db.
Proof. unfold getProducts. by destruct (Product.find db). Qed.

Lemma protect_sellers handler env db req :
  (∀ req', sellers (handler env db req').2 = sellers db) →
  sellers (protect handler env db req).2 = sellers db.
Proof. intros Hh. unfold protect. by destruct (authenticateToken env req). Qed.

(** Only the signup route writes to the seller collection. *)
Lemma app_sellers env db req :
  route req ≠ POST_sellers_signup → sellers (app env db req).2 = sellers db.
Proof.
  intros Hr. unfold app. destruct (route req); [done|..].
  - by destruct (login_cases env db req) as [-> _].
  - by rewrite getProducts_db.
  - apply protect_sellers, addProduct_sellers.
  - apply protect_sellers. intros req'. apply updateProduct_sellers.
  - apply protect_sellers. intros req'. apply deleteProduct_sellers.
Qed.

(** The handlers of the product routes read [name] and [description] and
    nothing else of the body. *)
Lemma product_routes_ignore_field f env db req :
  f ≠ "name" → f ≠ "description" →
  route req ≠ POST_sellers_signup → route req ≠ POST_sellers_login →
  app env db (without f req) = app env db req.
Proof.
  intros Hn Hd Hr1 Hr2. unfold app. simpl.
  destruct (route req); [done|done|done|..]; unfold protect;
    rewrite authenticate_without; destruct (authenticateToken env req); try done;
    unfold addProduct, updateProduct, deleteProduct; simpl;
    by rewrite ?lookup_delete_ne.
Qed.

(** C5: after a successful signup (201) the seller collection has one more
    record, whose password field is [bcrypt.hash] of the submitted password
    at cost 10 (and whose username is the submitted one, as the schema
    casts it); no other request adds or changes a seller record; and the
    two routes that receive a password answer with one of their fixed
    bodies or with a token over a stored seller's id and username, while
    the other routes do not read a [password] field at all. *)
Theorem passwords_stored_hashed env db req res db' :
  app env db req = (res, db') →
  (route req = POST_sellers_signup → status res = 201%Z →
     ∃ u p,
       castField (body req !! "username") = Some u ∧
       (∀ u0, body req !! "username" = Some (VString u0) → u0 = u) ∧
       body req !! "password" = Some (VString p) ∧
       db' = with_sellers db
               (sellers db ++
                  [mkSeller (new_id env) u (bcrypt_hash p 10 (salt env))]))
  ∧
  (status res ≠ 201%Z ∨ route req ≠ POST_sellers_signup →
     sellers db' = sellers db)
  ∧
  (route req = POST_sellers_signup → res ∈ signup_responses)
  ∧
  (route req = POST_sellers_login →
     db' = db ∧
     (res ∈ login_failures
      ∨ ∃ s k, s ∈ sellers db ∧ JWT_SECRET env = Some k ∧
          res = mkResponse 200
                  (Json [("token",
                          JString (jws_sign k
                            (mkPayload (s_id s) (s_username s) (now env)
                                       (Some (now env + 3600)%Z))))])))
  ∧
  (route req ≠ POST_sellers_signup → route req ≠ POST_sellers_login →
     app env db (without "password" req) = (res, db')).
Proof.
  intros Happ. split; [|split; [|split; [|split]]].
  - intros Hr. revert Happ. unfold app. rewrite Hr.
    destruct (signup_cases env db req)
      as [-> | [-> | (u & p & Hu & _ & Hp & _ & _ & ->)]];
      intros [= <- <-]; simpl; [done|done|]. intros _. exists u, p.
    split_and!; try done.
    intros u0 Hu0. rewrite (castField_string _ u0 Hu0) in Hu. by injection Hu.
  - intros Hcase.
    destruct (decide (route req = POST_sellers_signup)) as [Hr|Hr].
    + destruct Hcase as [Hst|]; [|done].
      revert Happ. unfold app. rewrite Hr.
      destruct (signup_cases env db req)
        as [-> | [-> | (u & p & _ & _ & _ & _ & _ & ->)]];
        intros [= <- <-]; done.
    + pose proof (app_sellers env db req Hr) as E. by rewrite Happ in E.
  - intros Hr. revert Happ. unfold app, signup_responses. rewrite Hr.
    destruct (signup_cases env db req)
      as [-> | [-> | (u & p & _ & _ & _ & _ & _ & ->)]];
      intros [= <- <-]; set_solver.
  - intros Hr. revert Happ. unfold app. rewrite Hr. intros Happ.
    destruct (login_cases env db req) as [Hdb Hres].
    rewrite Happ in Hdb, Hres. done.
  - intros Hr1 Hr2. by rewrite product_routes_ignore_field.
Qed.

Lemma NoDup_fmap_snoc {A B} (f : A → B) (l : list A) (x : A) :
  NoDup (f <$> l) → (∀ y, y ∈ l → f y ≠ f x) → NoDup (f <$> (l ++ [x])).
Proof.
  intros Hl Hx. rewrite fmap_app. apply NoDup_app.
  split; [done|]. split; [|apply NoDup_singleton].
  intros b (y & -> & Hy)%list_elem_of_fmap Hb%list_elem_of_singleton.
  by apply (Hx y).
Qed.

(** The store's constraints are kept by every request. *)
Lemma app_preserves_wf env db req : db_wf db → db_wf (app env db req).2.
Proof.
  intros (Hsid & Hname & Hpid).
  assert (Hwf : db_wf db) by done.
  assert (Hprot : ∀ handler,
            (∀ req', db_wf (handler env db req').2) →
            db_wf (protect handler env db req).2).
  { intros handler Hh. unfold protect.
    destruct (authenticateToken env req); [done|apply Hh]. }
  unfold app. destruct (route req).
  - unfold signup. destruct (_ || _); [done|].
    destruct (Bcrypt.hash _ _ _) as [hashed|]; [|done].
    destruct (Seller.construct _ _ _) as [doc|]; [|done].
    destruct (Seller.save _ _) as [db1|] eqn:Hsave; [|done].
    apply seller_save_inv in Hsave as (-> & Hid & Hun).
    unfold db_wf. simpl. split_and!; [| |done]; by apply NoDup_fmap_snoc.
  - by destruct (login_cases env db req) as [-> _].
  - by rewrite getProducts_db.
  - apply Hprot. intros req'. unfold addProduct. destruct (_ || _); [done|].
    destruct (Product.construct _ _ _) as [doc|]; [|done].
    destruct (Product.save _ _) as [db1|] eqn:Hsave; [|done].
    apply product_save_inv in Hsave as (-> & Hid).
    unfold db_wf. simpl. split_and!; [done|done|]. by apply NoDup_fmap_snoc.
  - apply Hprot. intros req'. unfold updateProduct, Product.findByIdAndUpdate.
    destruct (_ || _); [done|]. destruct (castObjectId id) as [oid|]; [|done].
    destruct (castField _) as [n|]; [|done].
    destruct (castField _) as [d|]; [|done].
    destruct (negb _); [done|].
    destruct (Product.update_first _ _ _ _) as [[p' l']|] eqn:E; [|done].
    apply StoreFacts.update_first_Some in E
      as (l1 & p & l2 & Hl & Hp & _ & -> & ->).
    unfold db_wf. simpl. split_and!; [done|done|]. rewrite Hl in Hpid.
    rewrite fmap_app, fmap_cons in *. simpl. by rewrite <- Hp.
  - apply Hprot. intros req'. unfold deleteProduct, Product.findByIdAndDelete.
    destruct (castObjectId id) as [oid|]; [|done].
    destruct (negb _); [done|].
    destruct (Product.remove_first _ _) as [[p' l']|] eqn:E; [|done].
    apply StoreFacts.remove_first_Some in E as (l1 & l2 & Hl & Hp & _ & ->).
    unfold db_wf. simpl. split_and!; [done|done|]. rewrite Hl in Hpid.
    rewrite fmap_app, fmap_cons in Hpid. rewrite fmap_app.
    apply NoDup_app in Hpid as (H1 & H2 & H3%NoDup_cons).
    apply NoDup_app. split_and!; [done| |tauto].
    intros x Hx1 Hx2. apply (H2 x Hx1). by right.
Qed.

(** X18: from the empty store, whatever requests are served and whatever
    they are answered, no two sellers share a username and no two
    documents of a collection share an [_id]. *)
Lemma serve_wf up requests : db_wf (serve (initial up) requests).
Proof.
  assert (Hinit : db_wf (initial up))
    by (unfold db_wf; simpl; split_and!; apply NoDup_nil_2).
  revert Hinit. generalize (initial up). induction requests as [|[env req] rest IH].
  - done.
  - intros db Hdb. simpl. by apply IH, app_preserves_wf.
Qed.

End Passwords.

(** * Further properties of the routes *)

(** ** What the middleware lets through *)

Section Gate.
Context {L : Libraries}.
Implicit Types (env : Env) (db : Db) (req : Request) (handler : Handler).

Lemma token_of_Some_inv a token :
  token_of a = Some token → token ≠ "" →
  ∃ h, a = Some h ∧ Js.split " " h !! 1%nat = Some token.
Proof.
  destruct a as [h|]; [|done]. intros Ht Hne. exists h. split; [done|].
  destruct (decide (h = "")) as [->|Hh].
  - simpl in Ht. by injection Ht as <-.
  - by rewrite token_of_header in Ht.
Qed.

Lemma split_piece_free sep s i piece :
  Js.split sep s !! i = Some piece → Js.free_of sep piece = true.
Proof.
  intros Hi. pose proof (JsFacts.split_pieces_free sep s) as Hall.
  by apply (proj1 (Forall_lookup _ _) Hall i piece).
Qed.

(** The three ways out of the middleware. *)
Lemma authenticate_cases env req :
  authenticateToken env req = Respond (mkResponse 401 (Text "Unauthorized"))
  ∨ authenticateToken env req = Respond (mkResponse 403 (Text "Forbidden"))
  ∨ ∃ h token u,
      authorization req = Some h
      ∧ Js.split " " h !! 1%nat = Some token
      ∧ token ≠ ""
      ∧ jwt_verify token (JWT_SECRET env) (now env) = Some u
      ∧ authenticateToken env req = Next u.
Proof.
  destruct (Js.truthy (token_of (authorization req))) eqn:Ht.
  - apply JsFacts.truthy_default in Ht as [Ht Hne].
    rewrite (authenticate_verified env req _ Ht Hne).
    destruct (jwt_verify _ _ _) as [u|] eqn:Hv; [|by right; left].
    right; right.
    destruct (token_of_Some_inv _ _ Ht Hne) as (h & Hh & Hsplit).
    by exists h, (default "" (token_of (authorization req))), u.
  - left. by apply authenticate_no_token.
Qed.

Lemma protect_cases handler env db req :
  protect handler env db req = (mkResponse 401 (Text "Unauthorized"), db)
  ∨ protect handler env db req = (mkResponse 403 (Text "Forbidden"), db)
  ∨ ∃ u, authenticateToken env req = Next u
         ∧ protect handler env db req = handler env db (with_user u req).
Proof.
  destruct (authenticate_cases env req) as [E | [E | (h & token & u & _ & _ & _ & _ & E)]].
  - left. by apply protect_respond.
  - right; left. by apply protect_respond.
  - right; right. exists u. split; [done|]. by apply protect_next.
Qed.

(** X1: the middleware calls [next] only for a header whose second piece
    (split at spaces) is a non-empty string that [jwt.verify] accepts under
    [JWT_SECRET] at the current time; that string contains no space, and
    [req.user] is the payload [jwt.verify] decoded. *)
Theorem next_only_if_verified env req u :
  authenticateToken env req = Next u →
  ∃ h token,
    authorization req = Some h
    ∧ Js.split " " h !! 1%nat = Some token
    ∧ token ≠ ""
    ∧ Js.free_of " " token = true
    ∧ jwt_verify token (JWT_SECRET env) (now env) = Some u.
Proof.
  intros Hnext.
  destruct (authenticate_cases env req)
    as [E | [E | (h & token & u' & Hh & Hsplit & Hne & Hv & E)]];
    rewrite Hnext in E; [done|done|]. injection E as ->.
  exists h, token. split_and!; try done. by apply (split_piece_free _ h 1%nat).
Qed.

(** X2: on the three protected routes the identity in the token plays no
    part: two requests to the same route with the same body, each carrying
    some token that verifies, get the same response and leave the same
    store, whoever the tokens were issued to. *)
Theorem any_verified_token_suffices env db req1 req2 u1 u2 :
  mutating (route req1) = true →
  route req2 = route req1 → body req2 = body req1 →
  authenticateToken env req1 = Next u1 →
  authenticateToken env req2 = Next u2 →
  app env db req2 = app env db req1.
Proof.
  intros Hmut Hroute Hbody H1 H2. unfold app. rewrite Hroute.
  destruct (route req1) eqn:Hr; try discriminate;
    rewrite (protect_next _ _ req1 _ u1 H1), (protect_next _ _ req2 _ u2 H2);
    unfold addProduct, updateProduct, deleteProduct; simpl; by rewrite ?Hbody.
Qed.

End Gate.

(** ** Every outcome of a handler *)

Section Outcomes.
Context {L : Libraries}.
Implicit Types (env : Env) (db : Db) (req : Request).

Lemma seller_save_connected db doc db' :
  Seller.save db doc = Resolved db' → connected db = true.
Proof.
  unfold Seller.save. destruct (negb _); [done|].
  by destruct (connected db).
Qed.

Lemma product_save_connected db doc db' :
  Product.save db doc = Resolved db' → connected db = true.
Proof.
  unfold Product.save. destruct (negb _); [done|].
  by destruct (connected db).
Qed.

Lemma product_save_resolved db doc :
  p_name doc ≠ "" → p_description doc ≠ "" → connected db = true →
  (∀ p, p ∈ products db → p_id p ≠ p_id doc) →
  Product.save db doc = Resolved (with_products db (products db ++ [doc])).
Proof.
  intros Hn%StoreFacts.required_iff Hd%StoreFacts.required_iff Hc
         Hid%StoreFacts.product_has_id_false.
  unfold Product.save. by rewrite Hn, Hd, Hc, Hid.
Qed.

Lemma signup_201 env db req res db' :
  signup env db req = (res, db') → status res = 201%Z →
  ∃ u p,
    castField (body req !! "username") = Some u ∧ u ≠ "" ∧
    body req !! "password" = Some (VString p) ∧ p ≠ "" ∧
    connected db = true ∧
    (∀ s, s ∈ sellers db → s_username s ≠ u) ∧
    (∀ s, s ∈ sellers db → s_id s ≠ new_id env) ∧
    res = mkResponse 201
            (Json [("message", JString "Seller registered successfully")]) ∧
    db' = with_sellers db
            (sellers db ++ [mkSeller (new_id env) u (bcrypt_hash p 10 (salt env))]).
Proof.
  unfold signup.
  destruct (Js.truthy_value (body req !! "username")) eqn:Hu;
    [|by intros [= <- <-]].
  destruct (Js.truthy_value (body req !! "password")) eqn:Hp;
    [|by intros [= <- <-]].
  simpl. unfold Bcrypt.hash.
  destruct (body req !! "password") as [[| | |p| |]|] eqn:Ep;
    try by intros [= <- <-].
  pose proof (truthy_string _ p eq_refl Hp) as Hpne.
  unfold Seller.construct.
  destruct (castField (body req !! "username")) as [u|] eqn:Eu;
    [|by intros [= <- <-]].
  destruct (Seller.save _ _) as [db1|e] eqn:E; intros [= <- <-]; [|done].
  intros _. pose proof (seller_save_connected _ _ _ E) as Hc.
  pose proof (seller_save_required _ _ _ E) as Hune.
  apply seller_save_inv in E as (-> & Hid & Hname).
  exists u, p. split_and!; done.
Qed.

Lemma product_save_required db doc db' :
  Product.save db doc = Resolved db' → p_name doc ≠ "" ∧ p_description doc ≠ "".
Proof.
  unfold Product.save.
  destruct (required (p_name doc)) eqn:En; [|done].
  destruct (required (p_description doc)) eqn:Ed; [|done].
  intros _. split; by apply StoreFacts.required_iff.
Qed.

(** The handlers past their presence checks. *)
Lemma addProduct_truthy env db req :
  Js.truthy_value (body req !! "name") = true →
  Js.truthy_value (body req !! "description") = true →
  addProduct env db req =
    match Product.construct (new_id env)
            (body req !! "name") (body req !! "description") with
    | None =>
        (mkResponse 500 (Json [("error", JString "Failed to insert product")]), db)
    | Some newProduct =>
        match Product.save db newProduct with
        | Resolved db' =>
            (mkResponse 201
               (Json [("message", JString "Product added successfully");
                      ("product", JDocument newProduct)]), db')
        | Rejected _ =>
            (mkResponse 500
               (Json [("error", JString "Failed to insert product")]), db)
        end
    end.
Proof. intros Hn Hd. unfold addProduct. by rewrite Hn, Hd. Qed.

Lemma updateProduct_truthy id env db req :
  Js.truthy_value (body req !! "name") = true →
  Js.truthy_value (body req !! "description") = true →
  updateProduct id env db req =
    match Product.findByIdAndUpdate db id
            (body req !! "name") (body req !! "description") with
    | Rejected _ =>
        (mkResponse 500 (Json [("error", JString "Failed to update product")]), db)
    | Resolved (None, _) =>
        (mkResponse 404 (Json [("error", JString "Product not found")]), db)
    | Resolved (Some updatedProduct, db') =>
        (mkResponse 200
           (Json [("message", JString "Product updated successfully");
                  ("product", JDocument updatedProduct)]), db')
    end.
Proof. intros Hn Hd. unfold updateProduct. by rewrite Hn, Hd. Qed.

Lemma addProduct_cases env db req :
  addProduct env db req = (fields_required, db)
  ∨ addProduct env db req
    = (mkResponse 500 (Json [("error", JString "Failed to insert product")]), db)
  ∨ ∃ n d,
      castField (body req !! "name") = Some n ∧ n ≠ "" ∧
      castField (body req !! "description") = Some d ∧ d ≠ "" ∧
      connected db = true ∧
      (∀ p, p ∈ products db → p_id p ≠ new_id env) ∧
      addProduct env db req
      = (mkResponse 201
           (Json [("message", JString "Product added successfully");
                  ("product", JDocument (mkProduct (new_id env) n d))]),
         with_products db (products db ++ [mkProduct (new_id env) n d])).
Proof.
  destruct (Js.truthy_value (body req !! "name")) eqn:Hn;
    [|left; apply addProduct_absent; by left].
  destruct (Js.truthy_value (body req !! "description")) eqn:Hd;
    [|left; apply addProduct_absent; by right].
  right. rewrite (addProduct_truthy env db req Hn Hd). unfold Product.construct.
  destruct (castField (body req !! "name")) as [n|] eqn:En; [|by left].
  destruct (castField (body req !! "description")) as [d|] eqn:Ed; [|by left].
  destruct (Product.save _ _) as [db'|e] eqn:E; [right|by left].
  pose proof (product_save_connected _ _ _ E) as Hc.
  pose proof (product_save_required _ _ _ E) as [Hnne Hdne].
  apply product_save_inv in E as (-> & Hid). exists n, d. split_and!; done.
Qed.

Lemma updateProduct_cases id env db req :
  updateProduct id env db req = (fields_required, db)
  ∨ updateProduct id env db req
    = (mkResponse 500 (Json [("error", JString "Failed to update product")]), db)
  ∨ (∃ oid, castObjectId id = Some oid ∧ connected db = true ∧
       (∀ p, p ∈ products db → p_id p ≠ oid) ∧
       updateProduct id env db req
       = (mkResponse 404 (Json [("error", JString "Product not found")]), db))
  ∨ ∃ oid n d l1 p l2,
      castObjectId id = Some oid ∧ connected db = true ∧
      castField (body req !! "name") = Some n ∧
      castField (body req !! "description") = Some d ∧
      products db = l1 ++ p :: l2 ∧ p_id p = oid ∧
      (∀ q, q ∈ l1 → p_id q ≠ oid) ∧
      updateProduct id env db req
      = (mkResponse 200
           (Json [("message", JString "Product updated successfully");
                  ("product", JDocument (mkProduct oid n d))]),
         with_products db (l1 ++ mkProduct oid n d :: l2)).
Proof.
  destruct (Js.truthy_value (body req !! "name")) eqn:Hn;
    [|left; apply updateProduct_absent; by left].
  destruct (Js.truthy_value (body req !! "description")) eqn:Hd;
    [|left; apply updateProduct_absent; by right].
  right. rewrite (updateProduct_truthy id env db req Hn Hd).
  unfold Product.findByIdAndUpdate.
  destruct (castObjectId id) as [oid|] eqn:Hcast; [|by left].
  destruct (castField (body req !! "name")) as [n|] eqn:En; [|by left].
  destruct (castField (body req !! "description")) as [d|] eqn:Ed; [|by left].
  destruct (connected db) eqn:Hc; simpl; [|by left]. right.
  destruct (Product.update_first _ _ _ _) as [[p' l']|] eqn:E.
  - right. apply StoreFacts.update_first_Some in E
      as (l1 & p & l2 & Hl & Hp & Hl1 & -> & ->).
    exists oid, n, d, l1, p, l2. split_and!; done.
  - left. exists oid. split_and!; try done.
    by eapply StoreFacts.update_first_None.
Qed.

Lemma deleteProduct_cases id env db req :
  deleteProduct id env db req
  = (mkResponse 500 (Json [("error", JString "Failed to delete product")]), db)
  ∨ (∃ oid, castObjectId id = Some oid ∧ connected db = true ∧
       (∀ p, p ∈ products db → p_id p ≠ oid) ∧
       deleteProduct id env db req
       = (mkResponse 404 (Json [("error", JString "Product not found")]), db))
  ∨ ∃ oid l1 p l2,
      castObjectId id = Some oid ∧ connected db = true ∧
      products db = l1 ++ p :: l2 ∧ p_id p = oid ∧
      (∀ q, q ∈ l1 → p_id q ≠ oid) ∧
      deleteProduct id env db req
      = (mkResponse 200
           (Json [("message", JString "Product deleted successfully")]),
         with_products db (l1 ++ l2)).
Proof.
  unfold deleteProduct, Product.findByIdAndDelete.
  destruct (castObjectId id) as [oid|] eqn:Hcast; [|by left].
  destruct (connected db) eqn:Hc; simpl; [|by left]. right.
  destruct (Product.remove_first _ _) as [[p' l']|] eqn:E.
  - right. apply StoreFacts.remove_first_Some in E
      as (l1 & l2 & Hl & Hp & Hl1 & ->).
    exists oid, l1, p', l2. split_and!; done.
  - left. exists oid. split_and!; try done.
    by apply StoreFacts.remove_first_None.
Qed.

Lemma with_products_same db : with_products db (products db) = db.
Proof. by destruct db. Qed.

End Outcomes.

(** ** The application as a whole *)

(** Membership in a list written out: the element is one of the entries. *)
Ltac listed :=
  simpl; repeat first [apply list_elem_of_here | apply list_elem_of_further].

Section Whole.
Context {L : Libraries}.
Implicit Types (env : Env) (db : Db) (req : Request) (res : Response).

Lemma login_unreachable env db req :
  connected db = false →
  login env db req = (credentials_required, db)
  ∨ login env db req
    = (mkResponse 500 (Json [("error", JString "Failed to login seller")]), db).
Proof.
  intros Hc. unfold login. destruct (_ || _); [by left|]. right.
  unfold Seller.findOne, Seller.findOneWhere. rewrite Hc. simpl.
  destruct (body req !! "username") as [v|]; [|done].
  by destruct (castCondition v).
Qed.

(** What every answer has in common: its status is one the route can give,
    the connection is as it was, the store is as it was unless the route
    is a writing one and succeeded (on a reachable store, in its own
    collection), and on an unreachable store nothing succeeds. *)
Lemma app_summary env db req res db' :
  app env db req = (res, db') →
  status res ∈ statuses_of (route req)
  ∧ connected db' = connected db
  ∧ (db' = db
     ∨ connected db = true
       ∧ ((status res = 201%Z ∧ route req = POST_sellers_signup
           ∧ products db' = products db)
          ∨ (status res = 201%Z ∧ route req = POST_products
             ∧ sellers db' = sellers db)
          ∨ (status res = 200%Z ∧ sellers db' = sellers db
             ∧ ∃ id, route req = PUT_products id ∨ route req = DELETE_products id)))
  ∧ (connected db = false → status res ∈ [400; 401; 403; 500]%Z).
Proof.
  unfold app. destruct (route req) as [| | | |id|id] eqn:Hr.
  - (* signup *)
    destruct (signup_cases env db req)
      as [E | [E | (u & p & _ & _ & _ & _ & _ & E)]].
    + rewrite E. intros [= <- <-].
      split_and!; [listed|done|by left|intros _; listed].
    + rewrite E. intros [= <- <-].
      split_and!; [listed|done|by left|intros _; listed].
    + pose proof (signup_201 _ _ _ _ _ E eq_refl)
        as (_ & _ & _ & _ & _ & _ & Hc & _).
      rewrite E. intros [= <- <-].
      split_and!; [listed|done| |by rewrite Hc].
      right. split; [done|]. left. done.
  - (* login *)
    intros Hres. destruct (login_cases env db req) as [Hdb Hcases].
    rewrite Hres in Hdb, Hcases. simpl in *. subst db'.
    split_and!; [|done|by left|].
    + destruct Hcases as [Hin | (s & k & _ & _ & ->)]; [|listed].
      unfold login_failures in Hin.
      repeat (apply elem_of_cons in Hin as [-> | Hin]; [listed|]).
      by apply elem_of_nil in Hin.
    + intros Hc. destruct (login_unreachable env db req Hc) as [E | E];
        rewrite E in Hres; injection Hres as <-; listed.
  - (* list *)
    unfold getProducts, Product.find, Res.json_array.
    destruct (connected db) eqn:Hc; simpl; [destruct (req_fresh _ _)|];
      intros [= <- <-]; (split_and!; [listed|done|by left|]); [done..|].
    intros _. listed.
  - (* add *)
    destruct (protect_cases addProduct env db req) as [E | [E | (u & _ & E)]];
      rewrite E; clear E;
      [intros [= <- <-]; split_and!; [listed|done|by left|intros _; listed]..|].
    destruct (addProduct_cases env db (with_user u req))
      as [E | [E | (n & d & _ & _ & _ & _ & Hc & _ & E)]]; rewrite E;
      intros [= <- <-];
      [split_and!; [listed|done|by left|intros _; listed]..|].
    split_and!; [listed|done| |by rewrite Hc].
    right. split; [done|]. right; left. done.
  - (* update *)
    destruct (protect_cases (updateProduct id) env db req)
      as [E | [E | (u & _ & E)]]; rewrite E; clear E;
      [intros [= <- <-]; split_and!; [listed|done|by left|intros _; listed]..|].
    destruct (updateProduct_cases id env db (with_user u req))
      as [E | [E | [(oid & _ & Hc & _ & E)
                   | (oid & n & d & l1 & p & l2 & _ & Hc & _ & _ & _ & _ & _ & E)]]];
      rewrite E; intros [= <- <-];
      [split_and!; [listed|done|by left|intros _; listed]..| |].
    + split_and!; [listed|done|by left|by rewrite Hc].
    + split_and!; [listed|done| |by rewrite Hc].
      right. split; [done|]. right; right. split_and!; eauto.
  - (* delete *)
    destruct (protect_cases (deleteProduct id) env db req)
      as [E | [E | (u & _ & E)]]; rewrite E; clear E;
      [intros [= <- <-]; split_and!; [listed|done|by left|intros _; listed]..|].
    destruct (deleteProduct_cases id env db (with_user u req))
      as [E | [(oid & _ & Hc & _ & E)
             | (oid & l1 & p & l2 & _ & Hc & _ & _ & _ & E)]];
      rewrite E; intros [= <- <-].
    + split_and!; [listed|done|by left|intros _; listed].
    + split_and!; [listed|done|by left|by rewrite Hc].
    + split_and!; [listed|done| |by rewrite Hc].
      right. split; [done|]. right; right. split_and!; eauto.
Qed.

(** X3: a request that is not answered 200 or 201 leaves the store exactly
    as it was, and so do login and the product listing whatever they
    answer: only a signup, add, update or delete that succeeded writes. *)
Theorem errors_leave_store env db req res db' :
  app env db req = (res, db') →
  (status res ≠ 200%Z → status res ≠ 201%Z → db' = db)
  ∧ (route req = POST_sellers_login ∨ route req = GET_products → db' = db).
Proof.
  intros Happ. apply app_summary in Happ as (_ & _ & Hdb & _). split.
  - intros H200 H201.
    destruct Hdb as [-> | (_ & [(E & _) | [(E & _) | (E & _)]])]; done.
  - intros Hroute.
    destruct Hdb as [-> | (_ & [(_ & E & _) | [(_ & E & _) | (_ & _ & id & E)]])];
      [done|..]; destruct Hroute as [Hr | Hr]; rewrite Hr in E;
      try discriminate; by destruct E.
Qed.

(** X4: each route writes to its own collection only.  No request changes
    whether the store is reachable; the three product routes and the
    listing never touch the sellers; signup, login and the listing never
    touch the products. *)
Theorem collections_are_separate env db req res db' :
  app env db req = (res, db') →
  connected db' = connected db
  ∧ (route req ≠ POST_sellers_signup → sellers db' = sellers db)
  ∧ (mutating (route req) = false → products db' = products db).
Proof.
  intros Happ. apply app_summary in Happ as (_ & Hc & Hdb & _).
  split; [done|]. split.
  - intros Hr.
    destruct Hdb as [-> | (_ & [(_ & E & _) | [(_ & _ & E) | (_ & E & _)]])]; done.
  - intros Hmut.
    destruct Hdb as [-> | (_ & [(_ & _ & E) | [(_ & E & _) | (_ & _ & id & E)]])];
      [done|done|..].
    + by rewrite E in Hmut.
    + destruct E as [E | E]; by rewrite E in Hmut.
Qed.

(** X5: the status codes of each route.  A request whose body
    [express.json()] refuses is answered with the status of the parser's
    error (400 for a body that is not JSON) before any route runs, and the
    store is as it was.  A request that reaches its route is answered: by
    signup 201, 400 or 500; by login 200, 400, 401 or 500; by the listing
    200, 304 (a conditional GET that Express finds fresh) or 500; by
    add-product 201, 400, 401, 403 or 500; by update-product 200, 400,
    401, 403, 404 or 500; by delete-product 200, 401, 403, 404 or 500; and
    nothing else. *)
Theorem status_of_each_route env db :
  (∀ req, status (app env db req).1 ∈ statuses_of (route req))
  ∧ (∀ i,
       match in_body i with
       | Accepted _ => status (server env db i).1 ∈ statuses_of (in_route i)
       | Refused code page => server env db i = (mkResponse code (Text page), db)
       end).
Proof.
  assert (Happ : ∀ req, status (app env db req).1 ∈ statuses_of (route req)).
  { intros req. destruct (app env db req) as [res db'] eqn:Happ.
    by apply app_summary in Happ as (Hst & _). }
  split; [done|]. intros i. unfold server.
  destruct (in_body i) as [b|code page]; [|done]. apply Happ.
Qed.

(** X6: when the store is unreachable nothing succeeds and nothing is
    written: every request is answered 400 (a field is missing), 401 or
    403 (the middleware) or 500 (the store call failed), never 200, 201 or
    404, and the store is as it was. *)
Theorem unreachable_store env db req res db' :
  connected db = false →
  app env db req = (res, db') →
  status res ∈ [400; 401; 403; 500]%Z ∧ db' = db.
Proof.
  intros Hc Happ. apply app_summary in Happ as (_ & _ & Hdb & Hst).
  split; [by apply Hst|].
  destruct Hdb as [-> | (Hc' & _)]; [done|]. by rewrite Hc in Hc'.
Qed.

End Whole.

(** ** Successes read backwards *)

Section Successes.
Context {L : Libraries}.
Implicit Types (env : Env) (db : Db) (req : Request) (res : Response).

(** An answer other than 401 and 403 comes from the handler. *)
Lemma protect_passed handler env db req res db' :
  protect handler env db req = (res, db') →
  status res ≠ 401%Z → status res ≠ 403%Z →
  ∃ u, authenticateToken env req = Next u
       ∧ handler env db (with_user u req) = (res, db').
Proof.
  intros Hres H401 H403.
  destruct (protect_cases handler env db req) as [E | [E | (u & Hu & E)]];
    rewrite E in Hres.
  - by injection Hres as <- <-.
  - by injection Hres as <- <-.
  - by exists u.
Qed.

Lemma addProduct_201 env db req res db' :
  addProduct env db req = (res, db') → status res = 201%Z →
  ∃ n d,
    castField (body req !! "name") = Some n ∧ n ≠ "" ∧
    castField (body req !! "description") = Some d ∧ d ≠ "" ∧
    connected db = true ∧
    (∀ p, p ∈ products db → p_id p ≠ new_id env) ∧
    res = mkResponse 201
            (Json [("message", JString "Product added successfully");
                   ("product", JDocument (mkProduct (new_id env) n d))]) ∧
    db' = with_products db (products db ++ [mkProduct (new_id env) n d]).
Proof.
  destruct (addProduct_cases env db req)
    as [E | [E | (n & d & Hn & Hnne & Hd & Hdne & Hc & Hid & E)]];
    rewrite E; intros [= <- <-]; [done|done|]. intros _.
  exists n, d. split_and!; done.
Qed.

Lemma updateProduct_200 id env db req res db' :
  updateProduct id env db req = (res, db') → status res = 200%Z →
  ∃ oid n d l1 p l2,
    castObjectId id = Some oid ∧ connected db = true ∧
    castField (body req !! "name") = Some n ∧
    Js.truthy_value (body req !! "name") = true ∧
    castField (body req !! "description") = Some d ∧
    Js.truthy_value (body req !! "description") = true ∧
    products db = l1 ++ p :: l2 ∧ p_id p = oid ∧
    (∀ q, q ∈ l1 → p_id q ≠ oid) ∧
    res = mkResponse 200
            (Json [("message", JString "Product updated successfully");
                   ("product", JDocument (mkProduct oid n d))]) ∧
    db' = with_products db (l1 ++ mkProduct oid n d :: l2).
Proof.
  destruct (Js.truthy_value (body req !! "name")) eqn:Hn;
    [|rewrite updateProduct_absent by (by left); by intros [= <- <-]].
  destruct (Js.truthy_value (body req !! "description")) eqn:Hd;
    [|rewrite updateProduct_absent by (by right); by intros [= <- <-]].
  destruct (updateProduct_cases id env db req)
    as [E | [E | [(oid & _ & _ & _ & E)
                 | (oid & n & d & l1 & p & l2 & Hcast & Hc & Hn' & Hd' & Hl & Hp & Hl1 & E)]]];
    rewrite E; intros [= <- <-]; [done|done|done|]. intros _.
  exists oid, n, d, l1, p, l2. split_and!; done.
Qed.

Lemma deleteProduct_200 id env db req res db' :
  deleteProduct id env db req = (res, db') → status res = 200%Z →
  ∃ oid l1 p l2,
    castObjectId id = Some oid ∧ connected db = true ∧
    products db = l1 ++ p :: l2 ∧ p_id p = oid ∧
    (∀ q, q ∈ l1 → p_id q ≠ oid) ∧
    res = mkResponse 200
            (Json [("message", JString "Product deleted successfully")]) ∧
    db' = with_products db (l1 ++ l2).
Proof.
  destruct (deleteProduct_cases id env db req)
    as [E | [(oid & _ & _ & _ & E)
           | (oid & l1 & p & l2 & Hcast & Hc & Hl & Hp & Hl1 & E)]];
    rewrite E; intros [= <- <-]; [done|done|]. intros _.
  exists oid, l1, p, l2. split_and!; done.
Qed.

(** A 200 from the login handler, read backwards. *)
Lemma login_200 env db req res db' :
  login env db req = (res, db') → status res = 200%Z →
  ∃ v condition p s k,
    body req !! "username" = Some v ∧ castCondition v = Some condition ∧
    body req !! "password" = Some (VString p) ∧
    s ∈ sellers db ∧ condition (s_username s) = true ∧
    (∀ u, body req !! "username" = Some (VString u) → s_username s = u) ∧
    bcrypt_compare p (s_password s) = true ∧
    JWT_SECRET env = Some k ∧ k ≠ "" ∧
    res = mkResponse 200
            (Json [("token",
                    JString (jws_sign k
                      (mkPayload (s_id s) (s_username s) (now env)
                                 (Some (now env + 3600)%Z))))]) ∧
    db' = db.
Proof.
  unfold login.
  destruct (_ || _); simpl; [by intros [= <- <-]|].
  unfold Seller.findOne.
  destruct (body req !! "username") as [v|] eqn:Ev; [|by intros [= <- <-]].
  destruct (castCondition v) as [condition|] eqn:Ec; [|by intros [= <- <-]].
  unfold Seller.findOneWhere. destruct (connected db); simpl;
    [|by intros [= <- <-]].
  destruct (List.find _ _) as [s|] eqn:Hfind; [|by intros [= <- <-]].
  apply find_some in Hfind as [Hs%list_elem_of_In Hmeets].
  unfold Bcrypt.compare.
  destruct (body req !! "password") as [[| | |p| |]|] eqn:Ep;
    try by intros [= <- <-].
  destruct (bcrypt_compare _ _) eqn:Hcmp; simpl; [|by intros [= <- <-]].
  unfold Jwt.sign. destruct (JWT_SECRET env) as [k|] eqn:Hk; simpl;
    [|by intros [= <- <-]].
  destruct (String.eqb k "") eqn:Hke; simpl; [by intros [= <- <-]|].
  apply String.eqb_neq in Hke. intros [= <- <-] _.
  exists v, condition, p, s, k. split_and!; try done.
  intros u [= ->]. rewrite castCondition_string in Ec. injection Ec as <-.
  by apply String.eqb_eq in Hmeets.
Qed.

(** X7: login answers 200 only when the lookup returned a stored seller
    for the submitted username (for a string, a seller of that username;
    in general, a seller whose username meets the condition Mongoose reads
    in the value), the submitted password is a string that [bcrypt.compare]
    accepts against that seller's stored hash, and a secret is set; the
    token is then the signature over that seller's id and username, and
    the store is untouched. *)
Theorem login_only_with_matching_password env db req res db' :
  route req = POST_sellers_login →
  app env db req = (res, db') → status res = 200%Z →
  ∃ v condition p s k,
    body req !! "username" = Some v ∧ castCondition v = Some condition ∧
    body req !! "password" = Some (VString p) ∧
    s ∈ sellers db ∧ condition (s_username s) = true ∧
    (∀ u, body req !! "username" = Some (VString u) → s_username s = u) ∧
    bcrypt_compare p (s_password s) = true ∧
    JWT_SECRET env = Some k ∧ k ≠ "" ∧
    res = mkResponse 200
            (Json [("token",
                    JString (jws_sign k
                      (mkPayload (s_id s) (s_username s) (now env)
                                 (Some (now env + 3600)%Z))))]) ∧
    db' = db.
Proof.
  intros Hr. unfold app. rewrite Hr.
  unfold login.
  destruct (_ || _); simpl; [by intros [= <- <-]|].
  unfold Seller.findOne.
  destruct (body req !! "username") as [v|] eqn:Ev; [|by intros [= <- <-]].
  destruct (castCondition v) as [condition|] eqn:Ec; [|by intros [= <- <-]].
  unfold Seller.findOneWhere. destruct (connected db); simpl;
    [|by intros [= <- <-]].
  destruct (List.find _ _) as [s|] eqn:Hfind; [|by intros [= <- <-]].
  apply find_some in Hfind as [Hs%list_elem_of_In Hmeets].
  unfold Bcrypt.compare.
  destruct (body req !! "password") as [[| | |p| |]|] eqn:Ep;
    try by intros [= <- <-].
  destruct (bcrypt_compare _ _) eqn:Hcmp; simpl; [|by intros [= <- <-]].
  unfold Jwt.sign. destruct (JWT_SECRET env) as [k|] eqn:Hk; simpl;
    [|by intros [= <- <-]].
  destruct (String.eqb k "") eqn:Hke; simpl; [by intros [= <- <-]|].
  apply String.eqb_neq in Hke. intros [= <- <-] _.
  exists v, condition, p, s, k. split_and!; try done.
  intros u [= ->]. rewrite castCondition_string in Ec. injection Ec as <-.
  by apply String.eqb_eq in Hmeets.
Qed.

End Successes.

(** ** Sellers: a username registers once, and then logs in *)

Section Accounts.
Context {L : Libraries}.
Implicit Types (env : Env) (db : Db) (req : Request) (res : Response).

Lemma seller_has_username_true u l s :
  s ∈ l → s_username s = u → Seller.has_username u l = true.
Proof.
  intros Hs Hu. destruct (Seller.has_username u l) eqn:E; [done|].
  by destruct (proj1 (StoreFacts.seller_has_username_false u l) E s Hs).
Qed.

(** X8: a signup whose username a stored seller already has never answers
    201 and leaves the store as it was; with both fields non-empty the
    answer is 500 [{ error: 'Failed to register seller' }]: the unique
    index on [username] refuses the insert and the [catch] answers. *)
Theorem signup_username_taken env db req u s :
  route req = POST_sellers_signup →
  body req !! "username" = Some (VString u) → s ∈ sellers db → s_username s = u →
  (app env db req).2 = db
  ∧ status (app env db req).1 ≠ 201%Z
  ∧ (∀ p, u ≠ "" → body req !! "password" = Some (VString p) → p ≠ "" →
       app env db req
       = (mkResponse 500 (Json [("error", JString "Failed to register seller")]),
          db)).
Proof.
  intros Hr Hu Hs Hsu. unfold app. rewrite Hr.
  assert (Hrej : ∀ p, Seller.save db
                   (mkSeller (new_id env) u (bcrypt_hash p 10 (salt env)))
                 = Rejected ValidationError
               ∨ Seller.save db
                   (mkSeller (new_id env) u (bcrypt_hash p 10 (salt env)))
                 = Rejected MongooseError
               ∨ Seller.save db
                   (mkSeller (new_id env) u (bcrypt_hash p 10 (salt env)))
                 = Rejected DuplicateKey).
  { intros p. unfold Seller.save. simpl.
    destruct (negb _); [by left|]. destruct (negb _); [by right; left|].
    rewrite (seller_has_username_true u _ s Hs Hsu), orb_true_r. by right; right. }
  assert (Hnot : (signup env db req).2 = db
                 ∧ status (signup env db req).1 ≠ 201%Z).
  { destruct (signup_cases env db req)
      as [E | [E | (u2 & p2 & Hu2 & _ & _ & _ & Hfree & _)]];
      [by rewrite E..|].
    rewrite (castField_string _ u Hu) in Hu2. injection Hu2 as <-.
    by destruct (Hfree s Hs). }
  destruct Hnot as [Hdb Hst]. split_and!; [done..|].
  intros p Hune Hp Hpne. rewrite (signup_present env db req u p) by done.
  destruct (Hrej p) as [E | [E | E]]; by rewrite E.
Qed.

(** X9: a username registers once.  After a signup answered 201, any later
    signup with the same username, whatever its password and whatever the
    surroundings, is refused and leaves the store as the first one left
    it. *)
Theorem signup_twice env1 env2 db req1 req2 res db' u :
  route req1 = POST_sellers_signup →
  app env1 db req1 = (res, db') → status res = 201%Z →
  body req1 !! "username" = Some (VString u) →
  route req2 = POST_sellers_signup →
  body req2 !! "username" = Some (VString u) →
  (app env2 db' req2).2 = db' ∧ status (app env2 db' req2).1 ≠ 201%Z.
Proof.
  intros Hr1 Happ Hst Hu1 Hr2 Hu2. unfold app in *. rewrite Hr1 in Happ.
  rewrite Hr2.
  apply signup_201 in Happ as (u' & p & Hu' & _ & _ & _ & _ & _ & _ & _ & ->);
    [|done].
  rewrite (castField_string _ u Hu1) in Hu'. injection Hu' as <-.
  set (db' := with_sellers db _).
  assert (Hnot : status (signup env2 db' req2).1 ≠ 201%Z).
  { intros Hst2. destruct (signup env2 db' req2) as [res2 db2] eqn:E2.
    apply signup_201 in E2 as (u2 & _ & Hu2' & _ & _ & _ & _ & Hfree & _); [|done].
    rewrite (castField_string _ u Hu2) in Hu2'. injection Hu2' as <-.
    apply (Hfree (mkSeller (new_id env1) u (bcrypt_hash p 10 (salt env1))));
      [|done].
    simpl. apply elem_of_app. right. by left. }
  split; [|done].
  destruct (signup_cases env2 db' req2) as [E | [E | (u2 & p2 & _ & _ & _ & _ & _ & E)]];
    rewrite E in *; done.
Qed.


End Accounts.

(** ** Products: add, update, delete and list *)

Section Catalogue.
Context {L : Libraries}.
Implicit Types (env : Env) (db : Db) (req : Request) (res : Response).

Lemma app_post env db req u :
  route req = POST_products → authenticateToken env req = Next u →
  app env db req = addProduct env db (with_user u req).
Proof. intros Hr Hauth. unfold app. by rewrite Hr, (protect_next _ _ _ _ u). Qed.

Lemma product_has_id_true i l p :
  p ∈ l → p_id p = i → Product.has_id i l = true.
Proof.
  intros Hp Hi. destruct (Product.has_id i l) eqn:E; [done|].
  by destruct (proj1 (StoreFacts.product_has_id_false i l) E p Hp).
Qed.

Lemma with_products_twice db l l' :
  with_products (with_products db l) l' = with_products db l'.
Proof. done. Qed.

(** X11: an authenticated add-product whose name and description are both
    truthy.  Mongoose casts the two values to the String paths of the
    schema, and the outcome follows the casts: when both cast to non-empty
    strings, the store is reachable and the new id is not in use, the
    answer is 201 with the message and the new document (new id, the two
    cast strings), which goes to the end of the collection, nothing else
    changing; when a value does not cast, or casts to the empty string, or
    the store is unreachable, or the id is in use, the answer is 500 and
    the store is unchanged.  A value that is a string casts to itself, so
    strings are stored as sent. *)
Theorem add_product_outcomes env db req u :
  route req = POST_products →
  authenticateToken env req = Next u →
  Js.truthy_value (body req !! "name") = true →
  Js.truthy_value (body req !! "description") = true →
  (∀ n d,
     castField (body req !! "name") = Some n → n ≠ "" →
     castField (body req !! "description") = Some d → d ≠ "" →
     connected db = true → (∀ p, p ∈ products db → p_id p ≠ new_id env) →
     app env db req
     = (mkResponse 201
          (Json [("message", JString "Product added successfully");
                 ("product", JDocument (mkProduct (new_id env) n d))]),
        with_products db (products db ++ [mkProduct (new_id env) n d])))
  ∧
  ((∀ n, castField (body req !! "name") = Some n → n = "")
   ∨ (∀ d, castField (body req !! "description") = Some d → d = "")
   ∨ connected db = false
   ∨ (∃ p, p ∈ products db ∧ p_id p = new_id env) →
     app env db req
     = (mkResponse 500 (Json [("error", JString "Failed to insert product")]), db))
  ∧
  (∀ n d,
     body req !! "name" = Some (VString n) →
     body req !! "description" = Some (VString d) →
     castField (body req !! "name") = Some n
     ∧ castField (body req !! "description") = Some d).
Proof.
  intros Hr Hauth Hn Hd.
  rewrite (app_post env db req u Hr Hauth).
  rewrite (addProduct_truthy env db (with_user u req) Hn Hd).
  change (body (with_user u req)) with (body req).
  unfold Product.construct. split_and!.
  - intros n d -> Hnne -> Hdne Hc Hid. by rewrite product_save_resolved.
  - intros Hfail.
    destruct (castField (body req !! "name")) as [n|]; [|done].
    destruct (castField (body req !! "description")) as [d|]; [|done].
    unfold Product.save. simpl.
    destruct (required n) eqn:En; simpl; [|done].
    destruct (required d) eqn:Ed; simpl; [|done].
    apply StoreFacts.required_iff in En, Ed.
    destruct Hfail as [Hx | [Hx | [-> | (p & Hp & Hid)]]]; [| |done|].
    + by destruct En; apply Hx.
    + by destruct Ed; apply Hx.
    + destruct (connected db); [|done]. simpl.
      by rewrite (product_has_id_true _ _ p Hp Hid).
  - intros n d -> ->. split; apply castString_string.
Qed.

(** X12: what a request can do to the product collection.  An add leaves
    it as it was or puts one document, with the new id, at its end; an
    update keeps every id in its place (no document appears, disappears or
    moves); a delete leaves it as it was or takes one document out, the
    others keeping their order; the other routes leave it as it was. *)
Theorem product_collection_changes env db req res db' :
  app env db req = (res, db') →
  match route req with
  | POST_products =>
      products db' = products db
      ∨ ∃ p, p_id p = new_id env ∧ products db' = products db ++ [p]
  | PUT_products _ => p_id <$> products db' = p_id <$> products db
  | DELETE_products _ =>
      products db' = products db
      ∨ ∃ l1 p l2, products db = l1 ++ p :: l2 ∧ products db' = l1 ++ l2
  | POST_sellers_signup | POST_sellers_login | GET_products =>
      products db' = products db
  end.
Proof.
  intros Happ. pose proof (app_summary env db req res db' Happ) as (_ & _ & Hdb & _).
  unfold app in Happ. destruct (route req) as [| | | |id|id] eqn:Hr.
  - destruct Hdb as [-> | (_ & [(_ & _ & E) | [(_ & E & _) | (_ & _ & i & [E | E])]])];
      done.
  - destruct Hdb as [-> | (_ & [(_ & E & _) | [(_ & E & _) | (_ & _ & i & [E | E])]])];
      done.
  - destruct Hdb as [-> | (_ & [(_ & E & _) | [(_ & E & _) | (_ & _ & i & [E | E])]])];
      done.
  - destruct (decide (status res = 201%Z)) as [Hst | Hst].
    + apply protect_passed in Happ as (u & _ & Hh); [|by rewrite Hst..].
      apply addProduct_201 in Hh as (n & d & _ & _ & _ & _ & _ & _ & _ & ->); [|done].
      right. by exists (mkProduct (new_id env) n d).
    + left. destruct Hdb as [-> | (_ & [(E & _) | [(E & _) | (_ & _ & i & [E | E])]])];
        done.
  - destruct (decide (status res = 200%Z)) as [Hst | Hst].
    + apply protect_passed in Happ as (u & _ & Hh); [|by rewrite Hst..].
      apply updateProduct_200 in Hh
        as (oid & n & d & l1 & p & l2 & _ & _ & _ & _ & _ & _ & Hl & Hp & _ & _ & ->);
        [|done].
      simpl. rewrite Hl, !fmap_app, !fmap_cons. simpl. by rewrite Hp.
    + destruct Hdb as [-> | (_ & [(_ & E & _) | [(_ & E & _) | (E & _)]])]; done.
  - destruct (decide (status res = 200%Z)) as [Hst | Hst].
    + apply protect_passed in Happ as (u & _ & Hh); [|by rewrite Hst..].
      apply deleteProduct_200 in Hh
        as (oid & l1 & p & l2 & _ & _ & Hl & _ & _ & _ & ->); [|done].
      right. by exists l1, p, l2.
    + left. destruct Hdb as [-> | (_ & [(_ & E & _) | [(_ & E & _) | (E & _)]])]; done.
Qed.

(** X13: an update is idempotent.  When a PUT was answered 200, sending
    the same request again (its token still verifying) gets the same
    response and leaves the store as the first one left it. *)
Theorem update_twice env1 env2 db req id res db' u2 :
  route req = PUT_products id →
  app env1 db req = (res, db') → status res = 200%Z →
  authenticateToken env2 req = Next u2 →
  app env2 db' req = (res, db').
Proof.
  intros Hr Happ Hst Hauth2. unfold app in Happ. rewrite Hr in Happ.
  apply protect_passed in Happ as (u & _ & Hh); [|by rewrite Hst..].
  apply updateProduct_200 in Hh
    as (oid & n & d & l1 & p & l2 & Hcast & Hc & Hn & Hnne & Hd & Hdne
        & Hl & Hp & Hl1 & -> & ->); [|done].
  rewrite (app_put env2 _ req id u2 Hr Hauth2).
  rewrite (updateProduct_truthy id env2 _ (with_user u2 req) Hnne Hdne).
  unfold Product.findByIdAndUpdate. rewrite Hcast.
  change (body (with_user u2 req)) with (body (with_user u req)).
  rewrite Hn, Hd. simpl. rewrite Hc. simpl.
  by rewrite StoreFacts.update_first_at.
Qed.

(** X14: add then delete.  After an add answered 201, an authenticated
    DELETE whose id casts to the id the add gave is answered 200 and
    brings the store back to what it was before the add. *)
Theorem add_then_delete env1 env2 db req1 req2 res db' id u2 :
  route req1 = POST_products →
  app env1 db req1 = (res, db') → status res = 201%Z →
  route req2 = DELETE_products id →
  castObjectId id = Some (new_id env1) →
  authenticateToken env2 req2 = Next u2 →
  app env2 db' req2
  = (mkResponse 200 (Json [("message", JString "Product deleted successfully")]),
     db).
Proof.
  intros Hr1 Happ Hst Hr2 Hcast Hauth2. unfold app in Happ. rewrite Hr1 in Happ.
  apply protect_passed in Happ as (u & _ & Hh); [|by rewrite Hst..].
  apply addProduct_201 in Hh as (n & d & _ & _ & _ & _ & Hc & Hid & _ & ->); [|done].
  rewrite (app_delete env2 _ req2 id u2 Hr2 Hauth2).
  unfold deleteProduct, Product.findByIdAndDelete. rewrite Hcast. simpl.
  rewrite Hc. simpl. rewrite StoreFacts.remove_first_at by done.
  by rewrite app_nil_r, with_products_twice, with_products_same.
Qed.

(** X15: a deleted product is gone.  After a DELETE answered 200 on a store
    whose ids are unique, no product has the id any more: the same request
    again (its token still verifying) is answered 404 and changes
    nothing. *)
Theorem delete_twice env1 env2 db req id res db' u2 :
  db_wf db →
  route req = DELETE_products id →
  app env1 db req = (res, db') → status res = 200%Z →
  authenticateToken env2 req = Next u2 →
  (∀ oid p, castObjectId id = Some oid → p ∈ products db' → p_id p ≠ oid)
  ∧ app env2 db' req
    = (mkResponse 404 (Json [("error", JString "Product not found")]), db').
Proof.
  intros (_ & _ & Hids) Hr Happ Hst Hauth2. unfold app in Happ. rewrite Hr in Happ.
  apply protect_passed in Happ as (u & _ & Hh); [|by rewrite Hst..].
  apply deleteProduct_200 in Hh
    as (oid & l1 & p & l2 & Hcast & Hc & Hl & Hp & Hl1 & _ & ->); [|done].
  assert (Hgone : ∀ q, q ∈ l1 ++ l2 → p_id q ≠ oid).
  { rewrite Hl, fmap_app, fmap_cons in Hids.
    apply NoDup_app in Hids as (_ & Hdisj & [Hp2 _]%NoDup_cons).
    intros q [Hq | Hq]%elem_of_app; [by apply Hl1|].
    intros Hqid. apply Hp2. rewrite Hp, <- Hqid. by apply list_elem_of_fmap_2. }
  split.
  - intros oid' q Hcast'. rewrite Hcast in Hcast'. injection Hcast' as <-.
    simpl. apply Hgone.
  - rewrite (app_delete env2 _ req id u2 Hr Hauth2).
    unfold deleteProduct, Product.findByIdAndDelete. rewrite Hcast. simpl.
    rewrite Hc. simpl.
    by rewrite (proj2 (StoreFacts.remove_first_None oid (l1 ++ l2)) Hgone).
Qed.

(** X16: a product that was added is listed.  After an add answered 201,
    a GET /api/products on the store it left, from anyone (the route has
    no middleware: no Authorization header is needed) and whatever the
    surroundings, is answered 200 with the products that were there before,
    in their order, followed by the document the add returned in its
    response; the listing leaves the store as it is.  (The request is not a
    conditional GET that Express finds fresh: to that one it answers 304.) *)
Theorem added_product_is_listed env1 env2 db req1 req2 res db' :
  route req1 = POST_products →
  app env1 db req1 = (res, db') → status res = 201%Z →
  route req2 = GET_products →
  req_fresh (headers req2) (products db') = false →
  ∃ p,
    p_id p = new_id env1 ∧
    res_body res = Json [("message", JString "Product added successfully");
                         ("product", JDocument p)] ∧
    app env2 db' req2
    = (mkResponse 200 (JsonArray (products db ++ [p])), db').
Proof.
  intros Hr1 Happ Hst Hr2 Hfresh. unfold app in Happ. rewrite Hr1 in Happ.
  apply protect_passed in Happ as (u & _ & Hh); [|by rewrite Hst..].
  apply addProduct_201 in Hh as (n & d & _ & _ & _ & _ & Hc & _ & -> & ->);
    [|done].
  exists (mkProduct (new_id env1) n d). split_and!; [done..|].
  unfold app. rewrite Hr2. unfold getProducts, Product.find.
  simpl in Hfresh |- *. rewrite Hc. simpl. by rewrite Hfresh.
Qed.

End Catalogue.

(** ** From login to a protected route, and the header split *)

Section Session.
Context {L : Libraries}.
Implicit Types (env : Env) (db : Db) (req : Request) (res : Response).

Lemma same_username_same_seller (l : list SellerDoc) s s' :
  NoDup (s_username <$> l) → s ∈ l → s' ∈ l →
  s_username s' = s_username s → s' = s.
Proof.
  intros Hnd Hs Hs' Hname.
  pose proof (StoreFacts.find_username_unique s l Hnd Hs) as E.
  pose proof (StoreFacts.find_username_unique s' l Hnd Hs') as E'.
  rewrite Hname in E'. rewrite E in E'. by injection E'.
Qed.

Lemma bearer_token token :
  token ≠ "" → Js.free_of " " token = true →
  token_of (Some ("Bearer " +:+ token)) = Some token.
Proof.
  intros Hne Hfree. rewrite token_of_header by done.
  change ("Bearer " +:+ token) with ("Bearer" +:+ String " " token).
  by rewrite JsFacts.split_app, JsFacts.split_free.
Qed.

(** X17: from login to a protected route.  The token a successful login
    returns for a seller, sent back as [Authorization: Bearer <token>],
    makes the middleware call [next] with [req.user] carrying that seller's
    id and username, provided the token library holds its side: the
    signature it made is a non-empty string without spaces and it verifies
    under the secret at the time of the second request. *)
Theorem issued_token_opens_routes env1 env2 db db1 db2 req1 req2 token s k handler :
  db_wf db → s ∈ sellers db →
  route req1 = POST_sellers_login →
  body req1 !! "username" = Some (VString (s_username s)) →
  JWT_SECRET env1 = Some k →
  app env1 db req1 = (mkResponse 200 (Json [("token", JString token)]), db1) →
  token ≠ "" → Js.free_of " " token = true →
  jwt_verify
    (jws_sign k (mkPayload (s_id s) (s_username s) (now env1)
                   (Some (now env1 + 3600)%Z)))
    (JWT_SECRET env2) (now env2)
  = Some (mkPayload (s_id s) (s_username s) (now env1) (Some (now env1 + 3600)%Z)) →
  authorization req2 = Some ("Bearer " +:+ token) →
  protect handler env2 db2 req2
  = handler env2 db2
      (with_user (mkPayload (s_id s) (s_username s) (now env1)
                    (Some (now env1 + 3600)%Z)) req2).
Proof.
  intros (_ & Hnames & _) Hs Hr Hu Hk Happ Hne Hfree Hverify Hheader.
  unfold app in Happ. rewrite Hr in Happ.
  apply login_200 in Happ
    as (v & condition & p & s' & k' & _ & _ & _ & Hs' & _ & Hname & _ & Hk' & _
        & Hres & _); [|done].
  specialize (Hname _ Hu).
  rewrite Hk in Hk'. injection Hk' as <-.
  assert (s' = s) as -> by by apply (same_username_same_seller (sellers db)).
  injection Hres as ->.
  apply protect_next.
  rewrite (authenticate_verified env2 req2 _ ltac:(by rewrite Hheader, bearer_token) Hne).
  by rewrite Hverify.
Qed.

(** X19: [authHeader.split(' ')], the way the middleware reads the header.
    The pieces are never none, contain no separator, and joined again with
    the separator give back the string; so the header is cut at each of
    its spaces and nowhere else. *)
Theorem split_round_trip sep s :
  Js.split sep s ≠ []
  ∧ Forall (λ piece, Js.free_of sep piece = true) (Js.split sep s)
  ∧ Js.join sep (Js.split sep s) = s.
Proof.
  split_and!.
  - apply JsFacts.split_not_nil.
  - apply JsFacts.split_pieces_free.
  - apply JsFacts.join_split.
Qed.

End Session.

(** * Concrete runs

    The application on the stand-in libraries: each general statement above
    is applied to requests, and the requests on which the code answers
    otherwise than one might expect (the body of a 401, an id that is no
    ObjectId, an empty field without a token) are evaluated. *)

Section Runs.
Local Existing Instance Stub.libraries.
Import Stub.

Local Ltac run := vm_compute; reflexivity.

Lemma db_wf_db : db_wf db.
Proof.
  unfold db_wf. split_and!; apply (bool_decide_unpack _); run.
Qed.

Lemma db_wf_empty : db_wf empty_db.
Proof. unfold db_wf. simpl. split_and!; apply NoDup_nil_2. Qed.

Lemma unauthenticated_mutation_rejected_run :
  (∃ res, app env db (mkRequest (DELETE_products "65f0a1b2c3d4e5f60123bbbb") None ∅ None)
          = (res, db) ∧ status res = 401%Z)
  ∧
  (∃ res, app env db (mkRequest POST_products (Some "Bearer forged")
                        (product_fields "Pen" "Red") None)
          = (res, db) ∧ status res = 403%Z).
Proof.
  split.
  - destruct (unauthenticated_mutation_rejected env db
                (mkRequest (DELETE_products "65f0a1b2c3d4e5f60123bbbb") None ∅ None)
                eq_refl) as (Habsent & _ & _).
    apply Habsent. reflexivity.
  - destruct (unauthenticated_mutation_rejected env db
                (mkRequest POST_products (Some "Bearer forged")
                   (product_fields "Pen" "Red") None) eq_refl) as (_ & _ & Hbad).
    apply (Hbad "forged"); [run | discriminate | run].
Defined.

(** Against C2 as stated: a login for the username ["alice"] whose
    password is the number 1 passes the presence check ([!1] is false).
    On a store without that seller the answer is 401; on a store that holds
    her, under a hash that 1 does not match, [bcrypt.compare] rejects the
    number (the data must be a string) and the [catch] answers 500.  The
    two responses differ, and tell whether the username is registered. *)
Lemma login_number_password_tells_apart :
  Js.truthy_value (Some (VString "alice")) = true
  ∧ Js.truthy_value (Some (VNumber 1)) = true
  ∧ (∀ s, s ∈ sellers empty_db → s_username s ≠ "alice")
  ∧ alice ∈ sellers db ∧ s_username alice = "alice"
  ∧ app env empty_db
      (mkRequest POST_sellers_login None
         {[ "username" := VString "alice"; "password" := VNumber 1 ]} None)
    = (mkResponse 401 (Json [("error", JString "Invalid credentials")]),
       empty_db)
  ∧ app env db
      (mkRequest POST_sellers_login None
         {[ "username" := VString "alice"; "password" := VNumber 1 ]} None)
    = (mkResponse 500 (Json [("error", JString "Failed to login seller")]), db)
  ∧ (app env empty_db
       (mkRequest POST_sellers_login None
          {[ "username" := VString "alice"; "password" := VNumber 1 ]} None)).1
    ≠ (app env db
         (mkRequest POST_sellers_login None
            {[ "username" := VString "alice"; "password" := VNumber 1 ]} None)).1.
Proof.
  split_and!; try (vm_compute; reflexivity).
  - intros s Hs. by apply elem_of_nil in Hs.
  - by left.
  - vm_compute. discriminate.
Qed.

Lemma login_failures_indistinguishable_run :
  app env empty_db (mkRequest POST_sellers_login None (credentials "alice" "guess") None)
  = (mkResponse 401 (Json [("error", JString "Invalid credentials")]), empty_db)
  ∧ app env db (mkRequest POST_sellers_login None (credentials "alice" "guess") None)
    = (mkResponse 401 (Json [("error", JString "Invalid credentials")]), db)
  ∧ (app env empty_db
       (mkRequest POST_sellers_login None (credentials "alice" "guess") None)).1
    = (app env db
         (mkRequest POST_sellers_login None (credentials "alice" "guess") None)).1.
Proof.
  apply (login_failures_indistinguishable env env empty_db db
           (mkRequest POST_sellers_login None (credentials "alice" "guess") None)
           "alice" "guess" alice).
  - reflexivity.
  - run.
  - discriminate.
  - run.
  - discriminate.
  - reflexivity.
  - intros s' Hs'. by apply elem_of_nil in Hs'.
  - reflexivity.
  - exact db_wf_db.
  - by left.
  - reflexivity.
  - run.
Defined.

Lemma login_issues_token_run :
  app env db (mkRequest POST_sellers_login None (credentials "alice" "pw") None)
  = (mkResponse 200
       (Json [("token",
               JString (sign "s3cret"
                          (mkPayload "65f0a1b2c3d4e5f60123aaaa" "alice"
                             1700000000 (Some 1700003600%Z))))]), db).
Proof.
  refine (login_issues_token env db
            (mkRequest POST_sellers_login None (credentials "alice" "pw") None)
            "alice" "pw" alice "s3cret" _ _ _ _ _ _ _ _ _ _ _ _).
  - reflexivity.
  - run.
  - discriminate.
  - run.
  - discriminate.
  - reflexivity.
  - exact db_wf_db.
  - by left.
  - reflexivity.
  - run.
  - reflexivity.
  - discriminate.
Defined.

(** Against C4 as stated: a request without an Authorization header is
    answered 401 with the twelve characters "Unauthorized" as body, not
    with an empty body. *)
Lemma missing_token_body_not_empty :
  ∃ res,
    authenticateToken env (mkRequest POST_products None ∅ None) = Respond res
    ∧ status res = 401%Z
    ∧ res_body res = Text "Unauthorized"
    ∧ Res.empty_body (res_body res) = false.
Proof. eexists. split_and!; reflexivity. Qed.

Lemma middleware_rejection_run :
  (authenticateToken env (mkRequest POST_products None ∅ None)
   = Respond (mkResponse 401 (Text "Unauthorized"))
   ∧ protect addProduct env db (mkRequest POST_products None ∅ None)
     = (mkResponse 401 (Text "Unauthorized"), db))
  ∧
  (authenticateToken env (mkRequest POST_products (Some "Bearer forged") ∅ None)
   = Respond (mkResponse 403 (Text "Forbidden"))
   ∧ protect addProduct env db (mkRequest POST_products (Some "Bearer forged") ∅ None)
     = (mkResponse 403 (Text "Forbidden"), db)).
Proof.
  split.
  - destruct (middleware_rejection env db
                (mkRequest POST_products None ∅ None) addProduct) as (Hnone & _).
    apply Hnone. reflexivity.
  - destruct (middleware_rejection env db
                (mkRequest POST_products (Some "Bearer forged") ∅ None) addProduct)
      as (_ & Hbad).
    apply (Hbad "forged"); [run | discriminate | run].
Defined.

Lemma scheme_is_never_checked_run :
  authenticateToken env
    (mkRequest POST_products (Some ("Basic " +:+ token)) ∅ None)
  = Next alice_payload
  ∧ authenticateToken env (mkRequest POST_products (Some "Bearer") ∅ None)
    = Respond (mkResponse 401 (Text "Unauthorized"))
  ∧ authenticateToken env (mkRequest POST_products (Some "Bearer  x") ∅ None)
    = Respond (mkResponse 401 (Text "Unauthorized")).
Proof.
  split_and!.
  - destruct (scheme_is_never_checked env
                (mkRequest POST_products (Some ("Basic " +:+ token)) ∅ None)
                ("Basic " +:+ token) eq_refl) as (_ & Hscheme & _ & _).
    apply (Hscheme "Basic" token);
      [reflexivity | run | discriminate | reflexivity | run].
  - destruct (scheme_is_never_checked env
                (mkRequest POST_products (Some "Bearer") ∅ None)
                "Bearer" eq_refl) as (_ & _ & Hfree & _).
    apply Hfree. reflexivity.
  - destruct (scheme_is_never_checked env
                (mkRequest POST_products (Some "Bearer  x") ∅ None)
                "Bearer  x" eq_refl) as (_ & _ & _ & Hempty).
    apply Hempty. reflexivity.
Defined.

Lemma passwords_stored_hashed_run :
  ∃ u p,
    castField (credentials "bob" "hunter2" !! "username") = Some u
    ∧ (∀ u0, credentials "bob" "hunter2" !! "username" = Some (VString u0) →
         u0 = u)
    ∧ credentials "bob" "hunter2" !! "password" = Some (VString p)
    ∧ with_sellers db
        (sellers db ++
           [mkSeller "65f0a1b2c3d4e5f601234567" "bob"
              (hash "hunter2" 10 "saltsaltsaltsaltsaltsa")])
      = with_sellers db
          (sellers db ++
             [mkSeller (new_id env) u (hash p 10 (salt env))]).
Proof.
  destruct (passwords_stored_hashed env db
              (mkRequest POST_sellers_signup None (credentials "bob" "hunter2") None)
              (mkResponse 201
                 (Json [("message", JString "Seller registered successfully")]))
              (with_sellers db
                 (sellers db ++
                    [mkSeller "65f0a1b2c3d4e5f601234567" "bob"
                       (hash "hunter2" 10 "saltsaltsaltsaltsaltsa")])))
    as (Hsignup & _); [run|].
  apply Hsignup; reflexivity.
Defined.



(** Against C7 as stated: an authenticated DELETE for the id ["abc"], which
    no product has, is answered 500, not 404. *)
Lemma delete_unknown_id_500 :
  Product.has_id "abc" (products db) = false
  ∧ authenticateToken env
      (mkRequest (DELETE_products "abc") (Some ("Bearer " +:+ token)) ∅ None)
    = Next alice_payload
  ∧ app env db
      (mkRequest (DELETE_products "abc") (Some ("Bearer " +:+ token)) ∅ None)
    = (mkResponse 500 (Json [("error", JString "Failed to delete product")]), db)
  ∧ status (app env db
              (mkRequest (DELETE_products "abc") (Some ("Bearer " +:+ token))
                 ∅ None)).1 ≠ 404%Z.
Proof. split_and!; [run..|]. vm_compute. discriminate. Qed.

Lemma delete_product_outcomes_run :
  app env db
    (mkRequest (DELETE_products "65f0a1b2c3d4e5f60123cccc")
       (Some ("Bearer " +:+ token)) ∅ None)
  = (mkResponse 200 (Json [("message", JString "Product deleted successfully")]),
     with_products db ([pen] ++ []))
  ∧ app env db
      (mkRequest (DELETE_products "65f0a1b2c3d4e5f60123dddd")
         (Some ("Bearer " +:+ token)) ∅ None)
    = (mkResponse 404 (Json [("error", JString "Product not found")]), db)
  ∧ app env db
      (mkRequest (DELETE_products "abc") (Some ("Bearer " +:+ token)) ∅ None)
    = (mkResponse 500 (Json [("error", JString "Failed to delete product")]), db).
Proof.
  split_and!.
  - destruct (delete_product_outcomes env db
                (mkRequest (DELETE_products "65f0a1b2c3d4e5f60123cccc")
                   (Some ("Bearer " +:+ token)) ∅ None)
                "65f0a1b2c3d4e5f60123cccc" alice_payload)
      as (_ & Hcast); [reflexivity|run|].
    destruct (Hcast "65f0a1b2c3d4e5f60123cccc") as (_ & Hfound); [run|reflexivity|].
    apply (Hfound [pen] ink []); [reflexivity|reflexivity|].
    intros q Hq. apply list_elem_of_singleton in Hq as ->. discriminate.
  - destruct (delete_product_outcomes env db
                (mkRequest (DELETE_products "65f0a1b2c3d4e5f60123dddd")
                   (Some ("Bearer " +:+ token)) ∅ None)
                "65f0a1b2c3d4e5f60123dddd" alice_payload)
      as (_ & Hcast); [reflexivity|run|].
    destruct (Hcast "65f0a1b2c3d4e5f60123dddd") as (Hnone & _); [run|reflexivity|].
    apply Hnone. intros p Hp. unfold db in Hp. simpl in Hp.
    apply elem_of_cons in Hp as [->|Hp]; [discriminate|].
    apply list_elem_of_singleton in Hp as ->. discriminate.
  - destruct (delete_product_outcomes env db
                (mkRequest (DELETE_products "abc")
                   (Some ("Bearer " +:+ token)) ∅ None)
                "abc" alice_payload)
      as (Hthrow & _); [reflexivity|run|].
    apply Hthrow. left. run.
Defined.

Lemma signup_missing_and_success_run :
  app env db (mkRequest POST_sellers_signup None {[ "username" := VString "bob" ]} None)
  = (mkResponse 400
       (Json [("error", JString "Username and password are required")]), db)
  ∧ app env db
      (mkRequest POST_sellers_signup None (credentials "bob" "hunter2") None)
    = (mkResponse 201
         (Json [("message", JString "Seller registered successfully")]),
       with_sellers db
         (sellers db ++
            [mkSeller (new_id env) "bob" (hash "hunter2" 10 (salt env))])).
Proof.
  split.
  - destruct (signup_missing_and_success env db
                (mkRequest POST_sellers_signup None {[ "username" := VString "bob" ]} None)
                eq_refl) as (Hmissing & _).
    apply Hmissing. right. run.
  - destruct (signup_missing_and_success env db
                (mkRequest POST_sellers_signup None (credentials "bob" "hunter2") None)
                eq_refl) as (_ & _ & Hok).
    apply (Hok "bob" "hunter2"); [run|discriminate|run|discriminate|reflexivity|..];
      intros s Hs; unfold db in Hs; simpl in Hs;
      apply list_elem_of_singleton in Hs as ->; discriminate.
Defined.

(** Against C10 as stated: an add-product request whose name is the empty
    string and which carries no token is answered 401, not 400. *)
Lemma empty_field_without_token_401 :
  product_fields "" "Blue ink pen" !! "name" = Some (VString EmptyString)
  ∧ app env db
      (mkRequest POST_products None (product_fields "" "Blue ink pen") None)
    = (mkResponse 401 (Text "Unauthorized"), db)
  ∧ status (app env db
              (mkRequest POST_products None
                 (product_fields "" "Blue ink pen") None)).1 ≠ 400%Z.
Proof. split_and!; [run..|]. vm_compute. discriminate. Qed.

Lemma empty_field_is_missing_run :
  (app env db (mkRequest POST_sellers_login None (credentials "alice" "") None)
   = (credentials_required, db)
   ∧ app env db
       (without "password"
          (mkRequest POST_sellers_login None (credentials "alice" "") None))
     = (credentials_required, db))
  ∧
  (app env db
     (mkRequest POST_products (Some ("Bearer " +:+ token))
        (product_fields "" "Blue ink pen") None)
   = (fields_required, db)
   ∧ app env db
       (without "name"
          (mkRequest POST_products (Some ("Bearer " +:+ token))
             (product_fields "" "Blue ink pen") None))
     = (fields_required, db)).
Proof.
  split.
  - destruct (empty_field_is_missing env db
                (mkRequest POST_sellers_login None (credentials "alice" "") None)
                "password") as (Hseller & _); [run|].
    apply Hseller; [by right | by right].
  - destruct (empty_field_is_missing env db
                (mkRequest POST_products (Some ("Bearer " +:+ token))
                   (product_fields "" "Blue ink pen") None)
                "name") as (_ & Hproduct); [run|].
    destruct Hproduct as (_ & Hauth); [by left | by left |].
    apply (Hauth alice_payload). run.
Defined.

End Runs.

(** * Further runs

    The further properties applied to requests on the stand-in libraries. *)

Section FurtherRuns.
Local Existing Instance Stub.libraries.
Import Stub.

Local Ltac run := vm_compute; reflexivity.

Lemma next_only_if_verified_run :
  ∃ h t,
    authorization (post_request (bearer token) "Pencil" "HB") = Some h
    ∧ Js.split " " h !! 1%nat = Some t
    ∧ t ≠ ""
    ∧ Js.free_of " " t = true
    ∧ verify t (JWT_SECRET env) (now env) = Some alice_payload.
Proof.
  refine (next_only_if_verified env (post_request (bearer token) "Pencil" "HB")
            alice_payload _).
  run.
Defined.

Lemma any_verified_token_suffices_run :
  app env db (put_request "65f0a1b2c3d4e5f60123bbbb" (bearer bob_token) "Pen" "Red")
  = app env db (put_request "65f0a1b2c3d4e5f60123bbbb" (bearer token) "Pen" "Red").
Proof.
  refine (any_verified_token_suffices env db
            (put_request "65f0a1b2c3d4e5f60123bbbb" (bearer token) "Pen" "Red")
            (put_request "65f0a1b2c3d4e5f60123bbbb" (bearer bob_token) "Pen" "Red")
            alice_payload bob_payload _ _ _ _ _);
    [reflexivity | reflexivity | reflexivity | run | run].
Defined.

Lemma errors_leave_store_run :
  (app env db (delete_request "abc" (bearer token))).2 = db
  ∧ (app env db (login_request "alice" "pw")).2 = db.
Proof.
  split.
  - destruct (errors_leave_store env db (delete_request "abc" (bearer token))
                (app env db (delete_request "abc" (bearer token))).1
                (app env db (delete_request "abc" (bearer token))).2)
      as (Herr & _); [run|].
    apply Herr; vm_compute; discriminate.
  - destruct (errors_leave_store env db (login_request "alice" "pw")
                (app env db (login_request "alice" "pw")).1
                (app env db (login_request "alice" "pw")).2)
      as (_ & Hread); [run|].
    apply Hread. by left.
Defined.

Lemma collections_are_separate_run :
  connected (app env db (signup_request "bob" "hunter2")).2 = connected db
  ∧ products (app env db (signup_request "bob" "hunter2")).2 = products db
  ∧ sellers (app env db (post_request (bearer token) "Pencil" "HB")).2
    = sellers db.
Proof.
  split_and!.
  - destruct (collections_are_separate env db (signup_request "bob" "hunter2")
                (app env db (signup_request "bob" "hunter2")).1
                (app env db (signup_request "bob" "hunter2")).2)
      as (Hconn & _); [run|]. exact Hconn.
  - destruct (collections_are_separate env db (signup_request "bob" "hunter2")
                (app env db (signup_request "bob" "hunter2")).1
                (app env db (signup_request "bob" "hunter2")).2)
      as (_ & _ & Hproducts); [run|]. apply Hproducts. reflexivity.
  - destruct (collections_are_separate env db
                (post_request (bearer token) "Pencil" "HB")
                (app env db (post_request (bearer token) "Pencil" "HB")).1
                (app env db (post_request (bearer token) "Pencil" "HB")).2)
      as (_ & Hsellers & _); [run|]. apply Hsellers. discriminate.
Defined.

Lemma unreachable_store_run :
  status (app env down_db (login_request "alice" "pw")).1 ∈ [400; 401; 403; 500]%Z
  ∧ (app env down_db (login_request "alice" "pw")).2 = down_db.
Proof.
  refine (unreachable_store env down_db (login_request "alice" "pw")
            (app env down_db (login_request "alice" "pw")).1
            (app env down_db (login_request "alice" "pw")).2 _ _);
    [reflexivity | run].
Defined.

Lemma login_only_with_matching_password_run :
  ∃ v f p s k,
    body (login_request "alice" "pw") !! "username" = Some v
    ∧ castCondition v = Some f
    ∧ body (login_request "alice" "pw") !! "password" = Some (VString p)
    ∧ s ∈ sellers db ∧ f (s_username s) = true
    ∧ (∀ u, body (login_request "alice" "pw") !! "username" = Some (VString u) →
         s_username s = u)
    ∧ compare p (s_password s) = true
    ∧ JWT_SECRET env = Some k ∧ k ≠ ""
    ∧ (app env db (login_request "alice" "pw")).1
      = mkResponse 200
          (Json [("token",
                  JString (sign k
                    (mkPayload (s_id s) (s_username s) (now env)
                               (Some (now env + 3600)%Z))))])
    ∧ (app env db (login_request "alice" "pw")).2 = db.
Proof.
  refine (login_only_with_matching_password env db (login_request "alice" "pw")
            (app env db (login_request "alice" "pw")).1
            (app env db (login_request "alice" "pw")).2 _ _ _);
    [reflexivity | run | run].
Defined.

Lemma signup_username_taken_run :
  (app env db (signup_request "alice" "other")).2 = db
  ∧ status (app env db (signup_request "alice" "other")).1 ≠ 201%Z
  ∧ app env db (signup_request "alice" "other")
    = (mkResponse 500 (Json [("error", JString "Failed to register seller")]), db).
Proof.
  destruct (signup_username_taken env db (signup_request "alice" "other")
              "alice" alice) as (Hdb & Hst & H500);
    [reflexivity | run | by left | reflexivity |].
  split_and!; [exact Hdb | exact Hst |].
  apply (H500 "other"); [discriminate | run | discriminate].
Defined.

Lemma signup_twice_run :
  (app later (app env db (signup_request "bob" "hunter2")).2
     (signup_request "bob" "second")).2
  = (app env db (signup_request "bob" "hunter2")).2
  ∧ status (app later (app env db (signup_request "bob" "hunter2")).2
              (signup_request "bob" "second")).1 ≠ 201%Z.
Proof.
  refine (signup_twice env later db (signup_request "bob" "hunter2")
            (signup_request "bob" "second")
            (app env db (signup_request "bob" "hunter2")).1
            (app env db (signup_request "bob" "hunter2")).2 "bob" _ _ _ _ _ _);
    [reflexivity | run | run | run | reflexivity | run].
Defined.


Lemma add_product_outcomes_run :
  app env db (post_request (bearer token) "Pencil" "HB")
  = (mkResponse 201
       (Json [("message", JString "Product added successfully");
              ("product",
               JDocument (mkProduct "65f0a1b2c3d4e5f601234567" "Pencil" "HB"))]),
     with_products db
       (products db ++ [mkProduct "65f0a1b2c3d4e5f601234567" "Pencil" "HB"]))
  ∧ app env down_db (post_request (bearer token) "Pencil" "HB")
    = (mkResponse 500 (Json [("error", JString "Failed to insert product")]),
       down_db)
  ∧ app env db
      (mkRequest POST_products (bearer token)
         {[ "name" := VNumber 123; "description" := VString "HB" ]} None)
    = (mkResponse 201
         (Json [("message", JString "Product added successfully");
                ("product",
                 JDocument (mkProduct "65f0a1b2c3d4e5f601234567" "123" "HB"))]),
       with_products db
         (products db ++ [mkProduct "65f0a1b2c3d4e5f601234567" "123" "HB"]))
  ∧ app env db
      (mkRequest POST_products (bearer token)
         {[ "name" := VObject [("a", VNumber 1)];
            "description" := VString "HB" ]} None)
    = (mkResponse 500 (Json [("error", JString "Failed to insert product")]), db).
Proof.
  assert (Hfree : ∀ p, p ∈ products db → p_id p ≠ new_id env).
  { intros p Hp. unfold db in Hp. simpl in Hp.
    apply elem_of_cons in Hp as [->|Hp]; [discriminate|].
    apply list_elem_of_singleton in Hp as ->. discriminate. }
  split_and!.
  - destruct (add_product_outcomes env db
                (post_request (bearer token) "Pencil" "HB") alice_payload)
      as (Hok & _); [reflexivity | run | run | run |].
    apply (Hok "Pencil" "HB");
      [reflexivity | discriminate | reflexivity | discriminate | reflexivity
      | exact Hfree].
  - destruct (add_product_outcomes env down_db
                (post_request (bearer token) "Pencil" "HB") alice_payload)
      as (_ & Hfail & _); [reflexivity | run | run | run |].
    apply Hfail. right. right. by left.
  - destruct (add_product_outcomes env db
                (mkRequest POST_products (bearer token)
                   {[ "name" := VNumber 123; "description" := VString "HB" ]}
                   None) alice_payload)
      as (Hok & _); [reflexivity | run | run | run |].
    apply (Hok "123" "HB");
      [run | discriminate | reflexivity | discriminate | reflexivity
      | exact Hfree].
  - destruct (add_product_outcomes env db
                (mkRequest POST_products (bearer token)
                   {[ "name" := VObject [("a", VNumber 1)];
                      "description" := VString "HB" ]} None) alice_payload)
      as (_ & Hfail & _); [reflexivity | run | run | run |].
    apply Hfail. left. intros n Hn. vm_compute in Hn. discriminate.
Defined.

Lemma product_collection_changes_run :
  p_id <$> products
             (app env db
                (put_request "65f0a1b2c3d4e5f60123bbbb" (bearer token) "Pen" "Red")).2
  = p_id <$> products db.
Proof.
  refine (product_collection_changes env db
            (put_request "65f0a1b2c3d4e5f60123bbbb" (bearer token) "Pen" "Red")
            (app env db
               (put_request "65f0a1b2c3d4e5f60123bbbb" (bearer token) "Pen" "Red")).1
            (app env db
               (put_request "65f0a1b2c3d4e5f60123bbbb" (bearer token) "Pen" "Red")).2
            _).
  run.
Defined.

Lemma update_twice_run :
  app later
    (app env db
       (put_request "65f0a1b2c3d4e5f60123bbbb" (bearer token) "Pen" "Red")).2
    (put_request "65f0a1b2c3d4e5f60123bbbb" (bearer token) "Pen" "Red")
  = ((app env db
        (put_request "65f0a1b2c3d4e5f60123bbbb" (bearer token) "Pen" "Red")).1,
     (app env db
        (put_request "65f0a1b2c3d4e5f60123bbbb" (bearer token) "Pen" "Red")).2).
Proof.
  refine (update_twice env later db
            (put_request "65f0a1b2c3d4e5f60123bbbb" (bearer token) "Pen" "Red")
            "65f0a1b2c3d4e5f60123bbbb" _ _ alice_payload _ _ _ _);
    [reflexivity | run | run | run].
Defined.

Lemma add_then_delete_run :
  app later (app env db (post_request (bearer token) "Pencil" "HB")).2
    (delete_request "65F0A1B2C3D4E5F601234567" (bearer bob_token))
  = (mkResponse 200 (Json [("message", JString "Product deleted successfully")]),
     db).
Proof.
  refine (add_then_delete env later db
            (post_request (bearer token) "Pencil" "HB")
            (delete_request "65F0A1B2C3D4E5F601234567" (bearer bob_token))
            (app env db (post_request (bearer token) "Pencil" "HB")).1
            (app env db (post_request (bearer token) "Pencil" "HB")).2
            "65F0A1B2C3D4E5F601234567" bob_payload _ _ _ _ _ _);
    [reflexivity | run | run | reflexivity | run | run].
Defined.

Lemma delete_twice_run :
  app later
    (app env db (delete_request "65f0a1b2c3d4e5f60123cccc" (bearer token))).2
    (delete_request "65f0a1b2c3d4e5f60123cccc" (bearer token))
  = (mkResponse 404 (Json [("error", JString "Product not found")]),
     (app env db (delete_request "65f0a1b2c3d4e5f60123cccc" (bearer token))).2).
Proof.
  destruct (delete_twice env later db
              (delete_request "65f0a1b2c3d4e5f60123cccc" (bearer token))
              "65f0a1b2c3d4e5f60123cccc"
              (app env db (delete_request "65f0a1b2c3d4e5f60123cccc" (bearer token))).1
              (app env db (delete_request "65f0a1b2c3d4e5f60123cccc" (bearer token))).2
              alice_payload) as (_ & H404);
    [exact db_wf_db | reflexivity | run | run | run |].
  exact H404.
Defined.

Lemma added_product_is_listed_run :
  ∃ p,
    p_id p = new_id env ∧
    res_body (app env db (post_request (bearer token) "Pencil" "HB")).1
    = Json [("message", JString "Product added successfully");
            ("product", JDocument p)] ∧
    app later (app env db (post_request (bearer token) "Pencil" "HB")).2
      (list_request None)
    = (mkResponse 200 (JsonArray (products db ++ [p])),
       (app env db (post_request (bearer token) "Pencil" "HB")).2).
Proof.
  refine (added_product_is_listed env later db
            (post_request (bearer token) "Pencil" "HB") (list_request None)
            (app env db (post_request (bearer token) "Pencil" "HB")).1
            (app env db (post_request (bearer token) "Pencil" "HB")).2
            _ _ _ _ _);
    [reflexivity | run | run | reflexivity | run].
Defined.

Lemma issued_token_opens_routes_run :
  protect addProduct later db
    (post_request
       (bearer (sign "s3cret"
                  (mkPayload "65f0a1b2c3d4e5f60123aaaa" "alice" 1700000000
                     (Some 1700003600%Z))))
       "Pencil" "HB")
  = addProduct later db
      (with_user
         (mkPayload "65f0a1b2c3d4e5f60123aaaa" "alice" 1700000000
            (Some 1700003600%Z))
         (post_request
            (bearer (sign "s3cret"
                       (mkPayload "65f0a1b2c3d4e5f60123aaaa" "alice" 1700000000
                          (Some 1700003600%Z))))
            "Pencil" "HB")).
Proof.
  refine (issued_token_opens_routes env later db db db
            (login_request "alice" "pw")
            (post_request
               (bearer (sign "s3cret"
                          (mkPayload "65f0a1b2c3d4e5f60123aaaa" "alice" 1700000000
                             (Some 1700003600%Z))))
               "Pencil" "HB")
            (sign "s3cret"
               (mkPayload "65f0a1b2c3d4e5f60123aaaa" "alice" 1700000000
                  (Some 1700003600%Z)))
            alice "s3cret" addProduct _ _ _ _ _ _ _ _ _ _);
    [exact db_wf_db | by left | reflexivity | run | reflexivity | run
    | vm_compute; discriminate | run | run | reflexivity].
Defined.

End FurtherRuns.
